(** * Extractor-hood firmware (afzuigkap.ino): shallow embedding and properties

    The sketch is a single control loop over global variables and the
    Arduino pin API.  The embedding keeps the globals in a record, records
    every pin operation the firmware issues in a log, and runs the sketch's
    functions in a small state-and-error monad; an array access outside its
    bounds (undefined behaviour in the source) is the error. *)

From Stdlib Require Import ZArith List Bool Lia.
From stdpp Require Import base tactics option list vector.
Import ListNotations.
Open Scope Z_scope.

(** ** Arduino core vocabulary *)

Definition LOW : Z := 0.
Definition HIGH : Z := 1.

Inductive PinMode := INPUT | OUTPUT | INPUT_PULLUP.

(** The analog pin names [A1] .. [A7] are macros of the board's core, which
    is not part of the sketch: they are parameters of the development. *)
Class AnalogPins := {
  A1 : Z; A2 : Z; A3 : Z; A4 : Z; A5 : Z; A7 : Z
}.

(** The numbering of the ATmega328 boards (A0 = 14 .. A7 = 21), used to
    instantiate the parameters on concrete inputs. *)
Definition atmega328_pins : AnalogPins :=
  {| A1 := 15; A2 := 16; A3 := 17; A4 := 18; A5 := 19; A7 := 21 |}.

(** Pin operations issued by the firmware. *)
Inductive HwOp :=
| OpPinMode (pin : Z) (m : PinMode)
| OpDigitalWrite (pin : Z) (val : Z)
| OpDelayMicroseconds (us : Z).

(** The C conversions the sketch relies on: [bool] to [int], and [!] on an
    [int]. *)
Definition int_of_bool (b : bool) : Z := if b then 1 else 0.
Definition lnot (x : Z) : Z := if x =? 0 then 1 else 0.

(** [unsigned long] is 32 bits wide on the Arduino targets; subtraction
    wraps around. *)
Definition ulong_modulus : Z := 2 ^ 32.
Definition ulong_sub (a b : Z) : Z := (a - b) mod ulong_modulus.

(** ** Global variables

    An [int] is modelled by an unbounded integer with exact arithmetic: the
    samples are analog readings (0 .. 1023), the blink counter stays below
    31 and the fan state within 0 .. 4, so no [int] operation of the sketch
    comes near the limits of even a 16-bit [int]. *)

Definition blCount : nat := 5.

Record Globals := mkGlobals {
  statusLedStates : vec Z blCount;
  bCurrVals : vec Z blCount;
  bPrevVals : vec Z blCount;
  lightState : bool;
  fanState : Z;
  espLightTogglePrev : Z;
  espLightToggleCurr : Z;
  millisPrev : Z;
  counter : Z
}.

(** The firmware's world: its globals and the pin operations issued so far,
    newest first. *)
Record World := mkWorld {
  vars : Globals;
  hw : list HwOp
}.

Definition set_statusLedStates (v : vec Z blCount) (g : Globals) : Globals :=
  mkGlobals v (bCurrVals g) (bPrevVals g) (lightState g) (fanState g)
    (espLightTogglePrev g) (espLightToggleCurr g) (millisPrev g) (counter g).
Definition set_bCurrVals (v : vec Z blCount) (g : Globals) : Globals :=
  mkGlobals (statusLedStates g) v (bPrevVals g) (lightState g) (fanState g)
    (espLightTogglePrev g) (espLightToggleCurr g) (millisPrev g) (counter g).
Definition set_bPrevVals (v : vec Z blCount) (g : Globals) : Globals :=
  mkGlobals (statusLedStates g) (bCurrVals g) v (lightState g) (fanState g)
    (espLightTogglePrev g) (espLightToggleCurr g) (millisPrev g) (counter g).
Definition set_lightState (b : bool) (g : Globals) : Globals :=
  mkGlobals (statusLedStates g) (bCurrVals g) (bPrevVals g) b (fanState g)
    (espLightTogglePrev g) (espLightToggleCurr g) (millisPrev g) (counter g).
Definition set_fanState (x : Z) (g : Globals) : Globals :=
  mkGlobals (statusLedStates g) (bCurrVals g) (bPrevVals g) (lightState g) x
    (espLightTogglePrev g) (espLightToggleCurr g) (millisPrev g) (counter g).
Definition set_espLightTogglePrev (x : Z) (g : Globals) : Globals :=
  mkGlobals (statusLedStates g) (bCurrVals g) (bPrevVals g) (lightState g)
    (fanState g) x (espLightToggleCurr g) (millisPrev g) (counter g).
Definition set_espLightToggleCurr (x : Z) (g : Globals) : Globals :=
  mkGlobals (statusLedStates g) (bCurrVals g) (bPrevVals g) (lightState g)
    (fanState g) (espLightTogglePrev g) x (millisPrev g) (counter g).
Definition set_millisPrev (x : Z) (g : Globals) : Globals :=
  mkGlobals (statusLedStates g) (bCurrVals g) (bPrevVals g) (lightState g)
    (fanState g) (espLightTogglePrev g) (espLightToggleCurr g) x (counter g).
Definition set_counter (x : Z) (g : Globals) : Globals :=
  mkGlobals (statusLedStates g) (bCurrVals g) (bPrevVals g) (lightState g)
    (fanState g) (espLightTogglePrev g) (espLightToggleCurr g) (millisPrev g) x.

(** The globals as the initialisers leave them (arrays without an
    initialiser are zeroed). *)
Definition boot_globals : Globals :=
  {| statusLedStates := [# HIGH; HIGH; HIGH; HIGH; HIGH];
     bCurrVals := [# 0; 0; 0; 0; 0];
     bPrevVals := [# 0; 0; 0; 0; 0];
     lightState := false;
     fanState := 0;
     espLightTogglePrev := 0;
     espLightToggleCurr := 0;
     millisPrev := 0;
     counter := 0 |}.

Definition boot : World := {| vars := boot_globals; hw := [] |}.

(** ** Arrays indexed by a C [int] *)

(** A constant table: [None] outside its bounds. *)
Definition nth_Z {A : Type} (l : list A) (i : Z) : option A :=
  match i with
  | Z.neg _ => None
  | _ => l !! Z.to_nat i
  end.

(** An index into one of the [blCount]-element arrays. *)
Definition bl_index (i : Z) : option (fin blCount) :=
  match i with
  | 0 => Some 0%fin
  | 1 => Some 1%fin
  | 2 => Some 2%fin
  | 3 => Some 3%fin
  | 4 => Some 4%fin
  | _ => None
  end.

Definition arr_get (a : vec Z blCount) (i : Z) : option Z :=
  match bl_index i with
  | Some k => Some (a !!! k)
  | None => None
  end.

Definition arr_set (a : vec Z blCount) (i : Z) (x : Z) : option (vec Z blCount) :=
  match bl_index i with
  | Some k => Some (vinsert k x a)
  | None => None
  end.

(** ** The firmware monad: state over [World], failing on an out-of-bounds
    access *)

Definition Fw (A : Type) : Type := World -> option (A * World).

Definition ret {A : Type} (a : A) : Fw A := fun w => Some (a, w).

Definition bind {A B : Type} (m : Fw A) (k : A -> Fw B) : Fw B :=
  fun w => match m w with
           | Some (a, w') => k a w'
           | None => None
           end.

Definition lift {A : Type} (o : option A) : Fw A :=
  fun w => match o with
           | Some a => Some (a, w)
           | None => None
           end.

Definition read {A : Type} (f : Globals -> A) : Fw A :=
  fun w => Some (f (vars w), w).

Definition modify (f : Globals -> Globals) : Fw unit :=
  fun w => Some (tt, {| vars := f (vars w); hw := hw w |}).

Definition emit (op : HwOp) : Fw unit :=
  fun w => Some (tt, {| vars := vars w; hw := op :: hw w |}).

Declare Scope fw_scope.
Delimit Scope fw_scope with fw.
Notation "'let*' x ':=' m 'in' k" := (bind m (fun x => k))
  (at level 10, x name, m at level 100, k at level 200, only parsing) : fw_scope.
Notation "m '>>' k" := (bind m (fun _ => k))
  (at level 90, right associativity) : fw_scope.
Open Scope fw_scope.

Definition when (b : bool) (c : Fw unit) : Fw unit :=
  if b then c else ret tt.

(** [for (int i = lo; ...; i++) body(i)], with [n] iterations to go. *)
Fixpoint for_loop (n : nat) (i : Z) (body : Z -> Fw unit) : Fw unit :=
  match n with
  | O => ret tt
  | S n' => body i >> for_loop n' (i + 1) body
  end.

Definition pinMode (pin : Z) (m : PinMode) : Fw unit := emit (OpPinMode pin m).
Definition digitalWrite (pin : Z) (val : Z) : Fw unit := emit (OpDigitalWrite pin val).
Definition delayMicroseconds (us : Z) : Fw unit := emit (OpDelayMicroseconds us).

(** The line state the log implies: the last value written to a pin and the
    last mode it was put in. *)
Fixpoint pin_level (p : Z) (log : list HwOp) : option Z :=
  match log with
  | [] => None
  | OpDigitalWrite q v :: rest => if q =? p then Some v else pin_level p rest
  | _ :: rest => pin_level p rest
  end.

(** Every value written to a pin, newest first. *)
Fixpoint writes_to (p : Z) (log : list HwOp) : list Z :=
  match log with
  | [] => []
  | OpDigitalWrite q v :: rest =>
      if q =? p then v :: writes_to p rest else writes_to p rest
  | _ :: rest => writes_to p rest
  end.

Fixpoint pin_mode (p : Z) (log : list HwOp) : option PinMode :=
  match log with
  | [] => None
  | OpPinMode q m :: rest => if q =? p then Some m else pin_mode p rest
  | _ :: rest => pin_mode p rest
  end.

(** Reading and writing one element of a global array. *)
Definition load (arr : Globals -> vec Z blCount) (i : Z) : Fw Z :=
  let* a := read arr in lift (arr_get a i).

Definition store (arr : Globals -> vec Z blCount)
    (set : vec Z blCount -> Globals -> Globals) (i x : Z) : Fw unit :=
  let* a := read arr in
  let* a' := lift (arr_set a i x) in
  modify (set a').

(** ** The sketch *)

Section Firmware.
Context {pins : AnalogPins}.

Definition buttonLedPins : list Z := [A4; A5; A1; A2; A3].

Definition lightPin : Z := 3.
Definition fanPin1 : Z := 5.
Definition fanPin2 : Z := 4.
Definition fanPin3 : Z := 2.
Definition espLightStatePin : Z := 9.
Definition espLightTogglePin : Z := A7.

Definition fanPinStates : list (list Z) :=
  [ [ LOW;  LOW;  LOW;   HIGH; HIGH; HIGH; HIGH ];
    [ HIGH; LOW;  LOW;   LOW;  LOW;  HIGH; HIGH ];
    [ LOW;  HIGH; LOW;   LOW;  HIGH; LOW;  HIGH ];
    [ HIGH; HIGH; LOW;   LOW;  HIGH; HIGH; LOW  ];
    [ HIGH; LOW;  HIGH;  LOW;  HIGH; HIGH; LOW  ] ].

(** [fanPinStates[fanState][col]] *)
Definition fanPinStates_at (col : Z) : Fw Z :=
  let* fs := read fanState in
  let* row := lift (nth_Z fanPinStates fs) in
  lift (nth_Z row col).

(** [digitalWrite(buttonLedPins[i], statusLedStates[i])] *)
Definition writeLed (i : Z) : Fw unit :=
  let* pin := lift (nth_Z buttonLedPins i) in
  let* v := load statusLedStates i in
  digitalWrite pin v.

(** [updateLeds(int index)] *)
Definition updateLeds (index : Z) : Fw unit :=
  if index =? -1 then for_loop blCount 0 writeLed
  else writeLed index.

(** [updateLeds()] *)
Definition updateLeds_all : Fw unit := updateLeds (-1).

Definition updateFan : Fw unit :=
  (let* v := fanPinStates_at 0 in digitalWrite fanPin1 v) >>
  (let* v := fanPinStates_at 1 in digitalWrite fanPin2 v) >>
  (let* v := fanPinStates_at 2 in digitalWrite fanPin3 v) >>
  (let* v := fanPinStates_at 3 in store statusLedStates set_statusLedStates 0 v) >>
  (let* v := fanPinStates_at 4 in store statusLedStates set_statusLedStates 1 v) >>
  (let* v := fanPinStates_at 5 in store statusLedStates set_statusLedStates 2 v) >>
  (let* v := fanPinStates_at 6 in store statusLedStates set_statusLedStates 3 v) >>
  updateLeds_all.

Definition updateLight : Fw unit :=
  (let* l := read lightState in digitalWrite lightPin (int_of_bool l)) >>
  (let* l := read lightState in
   if l then pinMode espLightStatePin INPUT
   else pinMode espLightStatePin OUTPUT >>
        delayMicroseconds 50 >>
        digitalWrite espLightStatePin LOW) >>
  (let* l := read lightState in
   store statusLedStates set_statusLedStates 4 (int_of_bool (negb l))) >>
  updateLeds 4.

Definition toggleLight : Fw unit :=
  (let* l := read lightState in modify (set_lightState (negb l))) >>
  updateLight.

Definition buttonPressed (index : Z) : Fw unit :=
  match index with
  | 0 | 1 | 2 =>
      modify (set_fanState index) >>
      updateFan
  | 3 =>
      (let* fs := read fanState in
       if fs =? 3 then modify (set_fanState 4)
       else modify (set_fanState 3)) >>
      updateFan
  | 4 => toggleLight
  | _ => ret tt
  end.

(** [adc pin] is what [analogRead(pin)] returns during the tick.  The
    source declares the function [int] but returns nothing, and no caller
    uses a result. *)
Definition readButtonState (adc : Z -> Z) (index : Z) : Fw unit :=
  let* pin := lift (nth_Z buttonLedPins index) in
  (let* cur := load bCurrVals index in store bPrevVals set_bPrevVals index cur) >>
  pinMode pin INPUT_PULLUP >>
  delayMicroseconds 50 >>
  store bCurrVals set_bCurrVals index (adc pin) >>
  delayMicroseconds 50 >>
  pinMode pin OUTPUT >>
  delayMicroseconds 50 >>
  (let* v := load statusLedStates index in digitalWrite pin v).

(** One pass of the button loop of [loop60]. *)
Definition pollButton (adc : Z -> Z) (i : Z) : Fw unit :=
  readButtonState adc i >>
  (let* prev := load bPrevVals i in
   let* cur := load bCurrVals i in
   when (300 <? prev - cur) (buttonPressed i)).

(** The companion-request check of [loop60]. *)
Definition pollCompanion (adc : Z -> Z) : Fw unit :=
  (let* c := read espLightToggleCurr in modify (set_espLightTogglePrev c)) >>
  modify (set_espLightToggleCurr (adc espLightTogglePin)) >>
  (let* cur := read espLightToggleCurr in
   let* prev := read espLightTogglePrev in
   when (600 <? cur - prev) toggleLight).

(** The blink counter of [loop60]. *)
Definition blinkStep : Fw unit :=
  (let* c := read counter in modify (set_counter (c + 1))) >>
  (let* c := read counter in
   when (c =? 30)
     (modify (set_counter 0) >>
      (let* fs := read fanState in
       when (fs =? 4)
         ((let* v := load statusLedStates 3 in
           store statusLedStates set_statusLedStates 3 (lnot v)) >>
          updateLeds 3)))).

Definition loop60 (adc : Z -> Z) : Fw unit :=
  for_loop blCount 0 (pollButton adc) >>
  pollCompanion adc >>
  blinkStep.

(** [now] is what [millis()] returns. *)
Definition loop (now : Z) (adc : Z -> Z) : Fw unit :=
  let millisCurr := now in
  let* prev := read millisPrev in
  when (16 <? ulong_sub millisCurr prev)
    (modify (set_millisPrev millisCurr) >>
     loop60 adc).

Definition setup : Fw unit :=
  for_loop blCount 0
    (fun i => let* pin := lift (nth_Z buttonLedPins i) in pinMode pin OUTPUT) >>
  updateLeds_all >>
  pinMode lightPin OUTPUT >>
  pinMode espLightStatePin OUTPUT >>
  delayMicroseconds 50 >>
  digitalWrite espLightStatePin LOW >>
  pinMode espLightTogglePin INPUT >>
  updateLight >>
  pinMode fanPin1 OUTPUT >>
  pinMode fanPin2 OUTPUT >>
  pinMode fanPin3 OUTPUT >>
  updateFan.

(** The sketch's life: [setup] once, then [loop] for ever; [run] executes
    it for a finite list of [loop] calls, each with its clock reading and
    its analog readings. *)
Fixpoint loops (inputs : list (Z * (Z -> Z))) : Fw unit :=
  match inputs with
  | [] => ret tt
  | (now, adc) :: rest => loop now adc >> loops rest
  end.

Definition run (inputs : list (Z * (Z -> Z))) : Fw unit :=
  setup >> loops inputs.

(** ** Reading the outputs *)

(** The indicators are active-low: a line driven [LOW] lights its LED. *)
Definition lit (v : Z) : bool := v =? LOW.

(** The four fan indicators (Off, 1, 2, 3+), [true] for a lit LED. *)
Definition fan_indicators (g : Globals) : bool * bool * bool * bool :=
  let leds := statusLedStates g in
  (lit (leds !!! 0%fin), lit (leds !!! 1%fin), lit (leds !!! 2%fin), lit (leds !!! 3%fin)).

(** The three relay lines, as last written. *)
Definition relay_lines (log : list HwOp) : option Z * option Z * option Z :=
  (pin_level fanPin1 log, pin_level fanPin2 log, pin_level fanPin3 log).

(** The level last written to the line of indicator [i]. *)
Definition led_line (i : Z) (log : list HwOp) : option Z :=
  match nth_Z buttonLedPins i with
  | Some pin => pin_level pin log
  | None => None
  end.

(** The signal on the line to the companion controller: driven low
    (output mode, [LOW] written) or released (input mode, left to the
    peer's pull-up). *)
Inductive CompanionSignal := DrivenLow | Floating.

Definition companion_signal (log : list HwOp) : option CompanionSignal :=
  match pin_mode espLightStatePin log with
  | Some OUTPUT =>
      match pin_level espLightStatePin log with
      | Some 0 => Some DrivenLow
      | _ => None
      end
  | Some INPUT => Some Floating
  | _ => None
  end.

(** Indicator 3 (the 3+ LED): its stored value, and whether its line
    carries that value. *)
Definition led3 (g : Globals) : Z := statusLedStates g !!! 3%fin.

Definition led3_driven (w : World) : Prop :=
  led_line 3 (hw w) = Some (led3 (vars w)).

(** The wiring the sketch assumes: every line has a pin of its own. *)
Definition all_pins : list Z :=
  buttonLedPins ++
  [lightPin; fanPin1; fanPin2; fanPin3; espLightStatePin; espLightTogglePin].

Definition pins_distinct : Prop := NoDup all_pins.

(** ** What the parts of a tick may change *)

(** What one pass of the button loop can do to the fan state, indicator 3,
    the blink counter and the log. *)
Definition button_effect (i : Z) (w w' : World) : Prop :=
  counter (vars w') = counter (vars w) /\
  (length (hw w) < length (hw w'))%nat /\
  (0 <= fanState (vars w) <= 4 -> 0 <= fanState (vars w') <= 4) /\
  ((fanState (vars w') = fanState (vars w) /\ led3 (vars w') = led3 (vars w)) \/
   (0 <= i <= 2 /\ fanState (vars w') = i) \/
   (i = 3 /\ fanState (vars w') = if fanState (vars w) =? 3 then 4 else 3)) /\
  (pins_distinct -> i = 3 \/ led3_driven w -> led3_driven w').

(** The companion check leaves the fan state, indicator 3 and the blink
    counter alone. *)
Definition companion_effect (w w' : World) : Prop :=
  counter (vars w') = counter (vars w) /\
  (length (hw w) <= length (hw w'))%nat /\
  fanState (vars w') = fanState (vars w) /\
  led3 (vars w') = led3 (vars w) /\
  (pins_distinct -> led3_driven w -> led3_driven w').

(** The blink counter: it counts to 30 and starts over; when it starts
    over in fan state 4, indicator 3 is inverted and written to its line. *)
Definition blink_effect (w w' : World) : Prop :=
  counter (vars w') =
    (if counter (vars w) + 1 =? 30 then 0 else counter (vars w) + 1) /\
  (length (hw w) <= length (hw w'))%nat /\
  fanState (vars w') = fanState (vars w) /\
  led3 (vars w') =
    (if counter (vars w) + 1 =? 30
     then if fanState (vars w) =? 4 then lnot (led3 (vars w)) else led3 (vars w)
     else led3 (vars w)) /\
  (pins_distinct -> led3_driven w -> led3_driven w').

(** What one tick does to the blink counter, the fan state and
    indicator 3. *)
Definition tick_effect (w w' : World) : Prop :=
  counter (vars w') =
    (if counter (vars w) + 1 =? 30 then 0 else counter (vars w) + 1) /\
  (length (hw w) < length (hw w'))%nat /\
  (0 <= fanState (vars w) <= 4 -> 0 <= fanState (vars w') <= 4) /\
  (fanState (vars w) = 4 -> fanState (vars w') = 4 ->
   led3 (vars w') =
     if counter (vars w) + 1 =? 30 then lnot (led3 (vars w)) else led3 (vars w)) /\
  (pins_distinct -> led3_driven w').

(** The worlds at the end of each of a series of ticks. *)
Fixpoint ticks (adcs : list (Z -> Z)) (w : World) : option (list World) :=
  match adcs with
  | [] => Some []
  | adc :: rest =>
      match loop60 adc w with
      | Some (_, w') =>
          match ticks rest w' with
          | Some ws => Some (w' :: ws)
          | None => None
          end
      | None => None
      end
  end.

(** ** Reading a whole tick *)

(** The pin of channel [i] and a sample of channel [i] (0 outside the
    channels). *)
Definition button_pin (i : Z) : Z := default 0 (nth_Z buttonLedPins i).

Definition sample (a : vec Z blCount) (i : Z) : Z := default 0 (arr_get a i).

(** Whether the reading [adc] of channel [i] drops by more than 300 from
    the channel's last sample: the test of the button loop. *)
Definition pressed (adc : Z -> Z) (g : Globals) (i : Z) : bool :=
  300 <? sample (bCurrVals g) i - adc (button_pin i).

(** Whether the reading [adc] of the request line rises by more than 600
    from its last sample: the test of the companion check. *)
Definition requested (adc : Z -> Z) (g : Globals) : bool :=
  600 <? adc espLightTogglePin - espLightToggleCurr g.

(** [fanPinStates[fs][col]], [None] outside the table. *)
Definition table_entry (fs col : Z) : option Z :=
  match nth_Z fanPinStates fs with
  | Some row => nth_Z row col
  | None => None
  end.

(** ** The outputs against the globals *)

(** The relay lines and the fan indicators are at the table row of the fan
    state; in fan state 4 indicator 3 may be at the inverse of its table
    value (the blink). *)
Definition fan_outputs_ok (w : World) : Prop :=
  let g := vars w in
  let fs := fanState g in
  0 <= fs <= 4 /\
  pin_level fanPin1 (hw w) = table_entry fs 0 /\
  pin_level fanPin2 (hw w) = table_entry fs 1 /\
  pin_level fanPin3 (hw w) = table_entry fs 2 /\
  Some (statusLedStates g !!! 0%fin) = table_entry fs 3 /\
  Some (statusLedStates g !!! 1%fin) = table_entry fs 4 /\
  Some (statusLedStates g !!! 2%fin) = table_entry fs 5 /\
  (Some (led3 g) = table_entry fs 6 \/
   (fs = 4 /\ Some (lnot (led3 g)) = table_entry fs 6)).

(** The light output, indicator 4 and the companion line agree with
    [lightState]. *)
Definition light_outputs_ok (w : World) : Prop :=
  let l := lightState (vars w) in
  statusLedStates (vars w) !!! 4%fin = int_of_bool (negb l) /\
  pin_level lightPin (hw w) = Some (int_of_bool l) /\
  companion_signal (hw w) = Some (if l then Floating else DrivenLow).

(** The line of channel [i] is in output mode and carries the indicator's
    stored value. *)
Definition led_line_ok (w : World) (i : Z) : Prop :=
  pin_mode (button_pin i) (hw w) = Some OUTPUT /\
  pin_level (button_pin i) (hw w) = arr_get (statusLedStates (vars w)) i.

Definition led_lines_ok (w : World) : Prop :=
  led_line_ok w 0 /\ led_line_ok w 1 /\ led_line_ok w 2 /\
  led_line_ok w 3 /\ led_line_ok w 4.

(** The lines that are never multiplexed keep the mode [setup] gave them. *)
Definition fixed_modes_ok (w : World) : Prop :=
  pin_mode lightPin (hw w) = Some OUTPUT /\
  pin_mode fanPin1 (hw w) = Some OUTPUT /\
  pin_mode fanPin2 (hw w) = Some OUTPUT /\
  pin_mode fanPin3 (hw w) = Some OUTPUT /\
  pin_mode espLightTogglePin (hw w) = Some INPUT.

Definition outputs_ok (w : World) : Prop :=
  fan_outputs_ok w /\ light_outputs_ok w /\ led_lines_ok w /\ fixed_modes_ok w.

End Firmware.

(** How often a value differs from the one before it, along [vs] and
    starting from [prev]. *)
Fixpoint changes (prev : Z) (vs : list Z) : nat :=
  match vs with
  | [] => 0%nat
  | v :: rest => ((if (v =? prev)%Z then 0 else 1) + changes v rest)%nat
  end.

(** The indicator columns of the transition table as the specification
    prints it (on = [true]), by fan state 0 .. 4. *)
Definition spec_indicator_row (fs : Z) : option (bool * bool * bool * bool) :=
  match fs with
  | 0 => Some (true, false, false, false)
  | 1 => Some (false, true, false, false)
  | 2 => Some (false, false, true, false)
  | 3 => Some (false, false, true, true)
  | 4 => Some (false, false, true, true)
  | _ => None
  end.

(** Indicator 4 as the specification words it: "asserted when light is
    off" (asserted = driven low = lit), by light state. *)
Definition spec_indicator4_lit (light : bool) : bool := negb light.

(** The world once the companion samples are shifted: the old current
    sample becomes the previous one and [cur] the current one. *)
Definition companion_sampled (cur : Z) (w : World) : World :=
  {| vars := set_espLightToggleCurr cur
               (set_espLightTogglePrev (espLightToggleCurr (vars w)) (vars w));
     hw := hw w |}.

(** [n] calls in a row. *)
Fixpoint times (n : nat) (c : Fw unit) : Fw unit :=
  match n with
  | O => ret tt
  | S n' => c >> times n' c
  end.

(** The world once [loop] has taken [now] as the time of the tick. *)
Definition stamped (now : Z) (w : World) : World :=
  {| vars := set_millisPrev now (vars w); hw := hw w |}.

(** A world with the boot-time globals, except for the fan state. *)
Definition world_in_fan_state (fs : Z) : World :=
  {| vars := set_fanState fs boot_globals; hw := [] |}.

(** ** Concrete readings *)

(** A world at rest: boot-time globals, every button line last read near
    full scale (no button pressed). *)
Definition idle_world : World :=
  {| vars := set_bCurrVals [# 1020; 1020; 1020; 1020; 1020] boot_globals;
     hw := [] |}.

(** Readings with no button pressed and no companion request: the button
    lines near full scale, the request line (pin 21 on the ATmega328) low. *)
Definition adc_idle (pin : Z) : Z := if pin =? 21 then 0 else 1020.

(** Readings with every button line pulled to about 3 V. *)
Definition adc_pressed (pin : Z) : Z := if pin =? 21 then 0 else 650.

(** Readings with only the 3+ button (pin 16 on the ATmega328) pressed. *)
Definition adc_press3 (pin : Z) : Z := if pin =? 16 then 650 else adc_idle pin.

(** A run that ends in fan state 4: the 3+ button is pressed, released and
    pressed again, at a tick every 20 ms. *)
Definition highblink_history : list (Z * (Z -> Z)) :=
  [(20, adc_idle); (40, adc_press3); (60, adc_idle); (80, adc_press3)].

Definition highblink_world : World :=
  match @run atmega328_pins highblink_history boot with
  | Some (_, w) => w
  | None => boot
  end.

(** Readings with the companion pulsing its request line. *)
Definition adc_request (pin : Z) : Z := if pin =? 21 then 660 else 1020.

(** The world [setup] leaves when run on the boot-time globals. *)
Definition ready_world : World :=
  match @setup atmega328_pins boot with
  | Some (_, w) => w
  | None => boot
  end.

(** * Properties *)

Lemma atmega328_pins_distinct : @pins_distinct atmega328_pins.
Proof.
  unfold pins_distinct. apply (bool_decide_unpack _). vm_compute. exact I.
Qed.

Ltac break_conj H :=
  lazymatch type of H with
  | _ /\ _ =>
      let H1 := fresh "Hne" in
      let H2 := fresh "Hne" in
      destruct H as [H1 H2]; break_conj H1; break_conj H2
  | _ => idtac
  end.

(** Turns [pins_distinct] into the pairwise disequalities of the pins. *)
Ltac split_distinct H :=
  unfold pins_distinct, all_pins, buttonLedPins, lightPin, fanPin1, fanPin2,
    fanPin3, espLightStatePin, espLightTogglePin in H;
  cbn [app] in H;
  repeat (let Hn := fresh "Hn" in apply NoDup_cons in H as [Hn H];
          rewrite ?not_elem_of_cons in Hn; break_conj Hn);
  clear H.

Ltac eqb_pins :=
  repeat match goal with
         | |- context [?a =? ?b] =>
             first [ rewrite (Z.eqb_refl a)
                   | rewrite (proj2 (Z.eqb_neq a b)) by (assumption || (apply not_eq_sym; assumption)) ]
         end.

Ltac destruct_world w :=
  let leds := fresh "leds" in
  let cur := fresh "cur" in
  let prev := fresh "prev" in
  destruct w as [[leds cur prev ? ? ? ? ? ?] ?];
  inv_vec leds; do 5 intro; inv_vec cur; do 5 intro; inv_vec prev; do 5 intro.

Section Properties.
Context {pins : AnalogPins}.

Lemma for_loop_blCount (body : Z -> Fw unit) :
  for_loop blCount 0 body =
  (body 0 >> body 1 >> body 2 >> body 3 >> body 4 >> ret tt).
Proof. reflexivity. Qed.

Lemma updateLeds_all_eq :
  updateLeds_all =
  (writeLed 0 >> writeLed 1 >> writeLed 2 >> writeLed 3 >> writeLed 4 >> ret tt).
Proof. reflexivity. Qed.

Lemma updateLeds_3 : updateLeds 3 = writeLed 3.
Proof. reflexivity. Qed.

Lemma updateLeds_4 : updateLeds 4 = writeLed 4.
Proof. reflexivity. Qed.

(** Symbolic execution: unfolds the sketch and the monad, leaving integer
    arithmetic, comparisons and the pin names alone. *)
Ltac fw_unfold :=
  cbv [updateFan fanPinStates_at fanPinStates writeLed updateLight toggleLight
       buttonPressed readButtonState pollButton pollCompanion blinkStep
       loop60 loop setup loops run
       buttonLedPins lightPin fanPin1 fanPin2 fanPin3 espLightStatePin
       espLightTogglePin
       bind ret lift read modify emit when pinMode digitalWrite
       delayMicroseconds load store arr_get arr_set bl_index nth_Z
       set_statusLedStates set_bCurrVals set_bPrevVals set_lightState
       set_fanState set_espLightTogglePrev set_espLightToggleCurr
       set_millisPrev set_counter
       vars hw statusLedStates bCurrVals bPrevVals lightState fanState
       espLightTogglePrev espLightToggleCurr millisPrev counter
       lookup list_lookup lookup_total vector_lookup_total vec_S_inv vinsert
       Z.to_nat Pos.to_nat Pos.iter_op Init.Nat.add
       fan_indicators relay_lines led_line companion_signal lit LOW HIGH negb
       led3 led3_driven stamped
       world_in_fan_state companion_sampled boot boot_globals].

Ltac fw_step :=
  fw_unfold;
  rewrite ?updateLeds_3, ?updateLeds_4, ?updateLeds_all_eq, ?for_loop_blCount.

Ltac fw_run := repeat progress fw_step.

(** Symbolic execution with a case split on every test that stays
    symbolic. *)
Ltac fw_cases :=
  repeat (fw_run;
          match goal with
          | |- context [if ?b then _ else _] => destruct b eqn:?
          end);
  fw_run.

Ltac fw_lines := repeat progress (cbn [pin_level pin_mode]; eqb_pins).

Lemma fanState_cases (fs : Z) :
  0 <= fs <= 4 -> fs = 0 \/ fs = 1 \/ fs = 2 \/ fs = 3 \/ fs = 4.
Proof. lia. Qed.

Lemma fan_led_cases (i : Z) :
  0 <= i <= 3 -> i = 0 \/ i = 1 \/ i = 2 \/ i = 3.
Proof. lia. Qed.

(** C1 (as amended): for every fan state, [updateFan] succeeds, leaves the
    fan state alone and sets the four fan indicators to the row of
    [fanPinStates]: Off -> all four off; Low -> ind0 and ind1 lit;
    Medium -> ind0 and ind2 lit; High and HighBlink -> ind0 and ind3 lit.
    With every line on a pin of its own, the four indicator lines carry
    those values. *)
Theorem updateFan_indicators (w : World) :
  0 <= fanState (vars w) <= 4 ->
  pins_distinct ->
  exists w',
    updateFan w = Some (tt, w') /\
    fanState (vars w') = fanState (vars w) /\
    fan_indicators (vars w') =
      match fanState (vars w) with
      | 0 => (false, false, false, false)
      | 1 => (true, true, false, false)
      | 2 => (true, false, true, false)
      | _ => (true, false, false, true)
      end /\
    forall i, 0 <= i <= 3 ->
      led_line i (hw w') = arr_get (statusLedStates (vars w')) i.
Proof.
  destruct_world w. cbn [vars fanState]. intros Hfs Hd.
  split_distinct Hd.
  apply fanState_cases in Hfs.
  destruct Hfs as [-> | [-> | [-> | [-> | ->]]]];
    (eexists; split; [fw_run; reflexivity |];
     split; [reflexivity |]; split; [reflexivity |];
     intros i Hi; apply fan_led_cases in Hi;
     destruct Hi as [-> | [-> | [-> | ->]]]; fw_run; fw_lines; reflexivity).
Qed.

(** C2: for every fan state, [updateFan] leaves the three relay lines at
    the table row of the state: Off -> (0,0,0); Low -> (1,0,0);
    Medium -> (0,1,0); High -> (1,1,0); HighBlink -> (1,0,1). *)
Theorem updateFan_relays (w : World) :
  0 <= fanState (vars w) <= 4 ->
  pins_distinct ->
  exists w',
    updateFan w = Some (tt, w') /\
    relay_lines (hw w') =
      match fanState (vars w) with
      | 0 => (Some 0, Some 0, Some 0)
      | 1 => (Some 1, Some 0, Some 0)
      | 2 => (Some 0, Some 1, Some 0)
      | 3 => (Some 1, Some 1, Some 0)
      | _ => (Some 1, Some 0, Some 1)
      end.
Proof.
  destruct_world w. cbn [vars fanState]. intros Hfs Hd.
  split_distinct Hd.
  apply fanState_cases in Hfs.
  destruct Hfs as [-> | [-> | [-> | [-> | ->]]]];
    (eexists; split; [fw_run; reflexivity |]; fw_run; fw_lines; reflexivity).
Qed.

Lemma button_index_cases (i : Z) :
  0 <= i <= 4 -> i = 0 \/ i = 1 \/ i = 2 \/ i = 3 \/ i = 4.
Proof. lia. Qed.

(** An index outside 0 .. 4 falls through the [switch]. *)
Lemma buttonPressed_other (index : Z) (w : World) :
  index < 0 \/ 4 < index -> buttonPressed index w = Some (tt, w).
Proof.
  intros Hout. destruct index as [| p | p]; [lia | | reflexivity].
  do 3 (try destruct p as [p | p |]); try lia; reflexivity.
Qed.

(** C3: [buttonPressed] always returns; buttons 0, 1 and 2 set the fan
    state to their index; button 3 sets it to 4 (HighBlink) from 3 (High)
    and to 3 from every other state; button 4 toggles the light and keeps
    the fan state; any other index changes nothing. *)
Theorem buttonPressed_transitions (index : Z) (w : World) :
  exists w',
    buttonPressed index w = Some (tt, w') /\
    (0 <= index <= 2 ->
       fanState (vars w') = index /\
       lightState (vars w') = lightState (vars w)) /\
    (index = 3 ->
       fanState (vars w') = (if fanState (vars w) =? 3 then 4 else 3) /\
       lightState (vars w') = lightState (vars w)) /\
    (index = 4 ->
       fanState (vars w') = fanState (vars w) /\
       lightState (vars w') = negb (lightState (vars w))) /\
    (index < 0 \/ 4 < index -> w' = w).
Proof.
  destruct (Z_le_dec 0 index) as [Hlo |];
    [destruct (Z_le_dec index 4) as [Hhi |] |].
  - assert (Hc : 0 <= index <= 4) by lia. clear Hlo Hhi.
    apply button_index_cases in Hc. destruct_world w.
    destruct Hc as [-> | [-> | [-> | [-> | ->]]]].
    5: destruct lightState0.
    4: destruct (fanState0 =? 3) eqn:Hfs.
    all: eexists; split; [fw_run; rewrite ?Hfs; fw_run; reflexivity |].
    all: cbn [vars fanState lightState]; rewrite ?Hfs.
    all: repeat split; intros; try lia; try reflexivity.
  - exists w. split; [apply buttonPressed_other; lia |].
    repeat split; intros; try lia; reflexivity.
  - exists w. split; [apply buttonPressed_other; lia |].
    repeat split; intros; try lia; reflexivity.
Qed.

(** C4 (as amended): for every light state, [toggleLight] (which is what
    button 4 runs) flips [lightState] and, in the same call, sets the level
    of indicator 4 to the negation of the new [lightState] ([HIGH] when the
    light is off, [LOW] when it is on), so that the active-low indicator is
    lit exactly when the light is on; it writes that level to the
    indicator's line, drives the light output with the new state, and
    leaves the companion line driven low when the light is now off and
    floating when it is now on. *)
Theorem toggleLight_consistent (w : World) :
  pins_distinct ->
  exists w',
    toggleLight w = Some (tt, w') /\
    buttonPressed 4 w = toggleLight w /\
    lightState (vars w') = negb (lightState (vars w)) /\
    statusLedStates (vars w') !!! 4%fin =
      int_of_bool (negb (lightState (vars w'))) /\
    lit (statusLedStates (vars w') !!! 4%fin) = lightState (vars w') /\
    led_line 4 (hw w') = Some (int_of_bool (negb (lightState (vars w')))) /\
    pin_level lightPin (hw w') = Some (int_of_bool (lightState (vars w'))) /\
    companion_signal (hw w') =
      Some (if lightState (vars w') then Floating else DrivenLow).
Proof.
  destruct_world w. intros Hd. split_distinct Hd.
  destruct lightState0;
    (eexists; split; [fw_run; reflexivity |];
     split; [reflexivity |];
     split; [reflexivity |];
     split; [reflexivity |];
     split; [reflexivity |];
     fw_run; fw_lines; repeat split; reflexivity).
Qed.

(** C5: for every pair of consecutive companion samples, the check of
    [loop60] shifts the samples and runs [toggleLight] (once) iff
    current - previous > 600: the light state flips exactly in that case,
    and otherwise nothing but the samples changes. *)
Theorem pollCompanion_toggles_iff (adc : Z -> Z) (w : World) :
  let prev := espLightToggleCurr (vars w) in
  let cur := adc espLightTogglePin in
  exists w',
    pollCompanion adc w = Some (tt, w') /\
    espLightTogglePrev (vars w') = prev /\
    espLightToggleCurr (vars w') = cur /\
    (lightState (vars w') = negb (lightState (vars w)) <-> cur - prev > 600) /\
    (cur - prev > 600 -> toggleLight (companion_sampled cur w) = Some (tt, w')) /\
    (cur - prev <= 600 -> w' = companion_sampled cur w).
Proof.
  destruct_world w. destruct lightState0; fw_cases.
  all: eexists; split; [reflexivity |].
  all: split; [reflexivity |]; split; [reflexivity |].
  all: match goal with
       | H : (_ <? _) = true |- _ => apply Z.ltb_lt in H
       | H : (_ <? _) = false |- _ => apply Z.ltb_ge in H
       end.
  all: cbn [vars lightState negb].
  all: repeat split; intros; try lia; try reflexivity; try discriminate.
Qed.

(** C6: for every channel and every pair of consecutive samples, the pass
    of the button loop reads the channel (the old current sample becomes
    the previous one) and then runs [buttonPressed] for it iff
    previous - current > 300; a press always leaves a trace (the pass ends
    in a different world than the read alone). *)
Theorem pollButton_press_iff (adc : Z -> Z) (i : Z) (w : World) :
  0 <= i <= 4 ->
  exists pin prev w_r w',
    nth_Z buttonLedPins i = Some pin /\
    arr_get (bCurrVals (vars w)) i = Some prev /\
    readButtonState adc i w = Some (tt, w_r) /\
    arr_get (bPrevVals (vars w_r)) i = Some prev /\
    arr_get (bCurrVals (vars w_r)) i = Some (adc pin) /\
    pollButton adc i w = Some (tt, w') /\
    (w' <> w_r <-> prev - adc pin > 300) /\
    (prev - adc pin > 300 -> buttonPressed i w_r = Some (tt, w')) /\
    (prev - adc pin <= 300 -> w' = w_r).
Proof.
  intros Hi. apply button_index_cases in Hi. destruct_world w.
  destruct Hi as [-> | [-> | [-> | [-> | ->]]]]; fw_cases.
  all: eexists _, _, _, _.
  all: split; [reflexivity |]; split; [reflexivity |]; split; [reflexivity |].
  all: split; [reflexivity |]; split; [reflexivity |]; split; [reflexivity |].
  all: repeat match goal with
       | H : (_ <? _) = true |- _ => apply Z.ltb_lt in H
       | H : (_ <? _) = false |- _ => apply Z.ltb_ge in H
       end.
  all: split; [split |].
  all: try (intros; lia).
  all: try (intros Hw; exfalso; apply Hw; reflexivity).
  all: try (intros _ Heq;
            apply (f_equal (fun v => length (hw v))) in Heq;
            cbn [hw length] in Heq; lia).
  all: split; intros; try lia; try reflexivity.
  all: fw_run; rewrite ?Heqb, ?Heqb0, ?Heqb1; fw_run; reflexivity.
Qed.

Lemma pin_level_app (p : Z) (ops log : list HwOp) :
  pin_level p (ops ++ log) =
  match pin_level p ops with
  | Some v => Some v
  | None => pin_level p log
  end.
Proof.
  induction ops as [| op ops IH]; [reflexivity |].
  destruct op; cbn [app pin_level]; try exact IH.
  destruct (pin =? p); [reflexivity | exact IH].
Qed.

Lemma pin_mode_app (p : Z) (ops log : list HwOp) :
  pin_mode p (ops ++ log) =
  match pin_mode p ops with
  | Some m => Some m
  | None => pin_mode p log
  end.
Proof.
  induction ops as [| op ops IH]; [reflexivity |].
  destruct op; cbn [app pin_mode]; try exact IH.
  destruct (pin =? p); [reflexivity | exact IH].
Qed.

Lemma pin_level_replicate (p : Z) (ops log : list HwOp) (n : nat) :
  pin_level p (concat (replicate (S n) ops) ++ log) = pin_level p (ops ++ log).
Proof.
  induction n as [| n IH].
  - cbn [replicate concat]. rewrite app_nil_r. reflexivity.
  - change (concat (replicate (S (S n)) ops))
      with (ops ++ concat (replicate (S n) ops)).
    rewrite <- app_assoc, pin_level_app, IH, (pin_level_app p ops log).
    destruct (pin_level p ops); reflexivity.
Qed.

Lemma pin_mode_replicate (p : Z) (ops log : list HwOp) (n : nat) :
  pin_mode p ops = None ->
  pin_mode p (concat (replicate n ops) ++ log) = pin_mode p log.
Proof.
  intros Hnone. induction n as [| n IH]; [reflexivity |].
  cbn [replicate concat]. rewrite <- app_assoc, pin_mode_app, Hnone. exact IH.
Qed.

Lemma concat_replicate_comm {A : Type} (l : list A) (n : nat) :
  concat (replicate n l) ++ l = l ++ concat (replicate n l).
Proof.
  induction n as [| n IH]; cbn [replicate concat].
  - rewrite app_nil_r. reflexivity.
  - rewrite <- app_assoc, IH. reflexivity.
Qed.

(** What one call of [updateLeds] does, for the all-channel form (-1) and
    for a channel 0 .. 4: it leaves the globals alone and issues writes
    (no mode change) that depend on the globals only. *)
Lemma updateLeds_writes (index : Z) (g : Globals) :
  index = -1 \/ 0 <= index <= 4 ->
  exists ops,
    (forall log,
       updateLeds index {| vars := g; hw := log |} =
       Some (tt, {| vars := g; hw := ops ++ log |})) /\
    (forall p, pin_mode p ops = None).
Proof.
  intros Hi.
  exists (match updateLeds index {| vars := g; hw := [] |} with
          | Some (_, w') => hw w'
          | None => []
          end).
  destruct g as [leds ? ? ? ? ? ? ? ?]. inv_vec leds. intros.
  destruct Hi as [-> | Hi].
  - change (updateLeds (-1)) with updateLeds_all.
    split; [intros log | intros p]; fw_run; reflexivity.
  - apply button_index_cases in Hi.
    destruct Hi as [-> | [-> | [-> | [-> | ->]]]];
      (change (updateLeds ?k) with (writeLed k);
       split; [intros log | intros p]; fw_run; reflexivity).
Qed.

(** C9: for every indicator state, calling [updateLeds] (all channels, or
    one channel 0 .. 4) any number of times leaves the globals untouched
    and issues the same writes on every call, so the lines are after any
    number of calls as they are after one. *)
Theorem updateLeds_idempotent (index : Z) (g : Globals) :
  index = -1 \/ 0 <= index <= 4 ->
  exists ops,
    (forall n log,
       times n (updateLeds index) {| vars := g; hw := log |} =
       Some (tt, {| vars := g; hw := concat (replicate n ops) ++ log |})) /\
    (forall n log p,
       pin_level p (concat (replicate (S n) ops) ++ log) =
       pin_level p (ops ++ log)) /\
    (forall n log p,
       pin_mode p (concat (replicate n ops) ++ log) = pin_mode p log).
Proof.
  intros Hi. destruct (updateLeds_writes index g Hi) as (ops & Hops & Hmode).
  exists ops. split; [| split].
  - induction n as [| n IH]; intros log; [reflexivity |].
    cbn [times]. unfold bind at 1. rewrite Hops, IH.
    change (concat (replicate (S n) ops)) with (ops ++ concat (replicate n ops)).
    rewrite <- concat_replicate_comm, <- app_assoc. reflexivity.
  - intros n log p. apply pin_level_replicate.
  - intros n log p. apply pin_mode_replicate, Hmode.
Qed.

(** ** One tick, part by part *)

Lemma pollButton_effect (adc : Z -> Z) (i : Z) (w : World) :
  0 <= i <= 4 ->
  exists w', pollButton adc i w = Some (tt, w') /\ button_effect i w w'.
Proof.
  intros Hi. apply button_index_cases in Hi. destruct_world w.
  unfold button_effect.
  destruct Hi as [-> | [-> | [-> | [-> | ->]]]]; fw_cases.
  all: eexists; split; [reflexivity |].
  all: cbn [length].
  all: split; [reflexivity |]; split; [lia |]; split; [intros; lia |].
  all: split;
    [ first [ left; split; reflexivity
            | right; left; split; [lia | reflexivity]
            | right; right; split; reflexivity ]
    | ].
  all: intros Hd Hs; split_distinct Hd; fw_lines; try reflexivity.
  all: destruct Hs as [Hs | Hs]; [discriminate Hs | exact Hs].
Qed.

Lemma pollCompanion_effect (adc : Z -> Z) (w : World) :
  exists w', pollCompanion adc w = Some (tt, w') /\ companion_effect w w'.
Proof.
  destruct_world w. unfold companion_effect. fw_cases.
  all: eexists; split; [reflexivity |].
  all: cbn [length].
  all: split; [reflexivity |]; split; [lia |].
  all: split; [reflexivity |]; split; [reflexivity |].
  all: intros Hd Hs; split_distinct Hd; fw_lines; exact Hs.
Qed.

Lemma blinkStep_effect (w : World) :
  exists w', blinkStep w = Some (tt, w') /\ blink_effect w w'.
Proof.
  destruct_world w. unfold blink_effect. fw_cases.
  all: eexists; split; [reflexivity |].
  all: cbn [length].
  all: split; [reflexivity |]; split; [lia |].
  all: split; [reflexivity |]; split; [reflexivity |].
  all: intros Hd Hs; split_distinct Hd; fw_lines; first [exact Hs | reflexivity].
Qed.

Lemma loop60_effect (adc : Z -> Z) (w : World) :
  exists w', loop60 adc w = Some (tt, w') /\ tick_effect w w'.
Proof.
  destruct (pollButton_effect adc 0 w) as (w1 & R1 & C1 & L1 & F1 & T1 & D1); [lia |].
  destruct (pollButton_effect adc 1 w1) as (w2 & R2 & C2 & L2 & F2 & T2 & D2); [lia |].
  destruct (pollButton_effect adc 2 w2) as (w3 & R3 & C3 & L3 & F3 & T3 & D3); [lia |].
  destruct (pollButton_effect adc 3 w3) as (w4 & R4 & C4 & L4 & F4 & T4 & D4); [lia |].
  destruct (pollButton_effect adc 4 w4) as (w5 & R5 & C5 & L5 & F5 & T5 & D5); [lia |].
  destruct (pollCompanion_effect adc w5) as (w6 & R6 & C6 & L6 & F6 & T6 & D6).
  destruct (blinkStep_effect w6) as (w7 & R7 & C7 & L7 & F7 & T7 & D7).
  exists w7. split.
  - unfold loop60. rewrite for_loop_blCount. unfold bind, ret.
    rewrite R1, R2, R3, R4, R5, R6. exact R7.
  - unfold tick_effect.
    assert (Hc : counter (vars w6) = counter (vars w)) by congruence.
    rewrite Hc in C7, T7.
    split; [exact C7 |]. split; [lia |].
    split; [intros Hr; rewrite F7, F6; exact (F5 (F4 (F3 (F2 (F1 Hr))))) |].
    split.
    + intros Hw Hw'.
      assert (A3 : 0 <= fanState (vars w3) <= 2 \/
                   (fanState (vars w3) = 4 /\ led3 (vars w3) = led3 (vars w))) by lia.
      assert (A4 : 0 <= fanState (vars w4) <= 3 \/
                   (fanState (vars w4) = 4 /\ led3 (vars w4) = led3 (vars w))).
      { destruct (fanState (vars w3) =? 3) eqn:E3; [apply Z.eqb_eq in E3 |]; lia. }
      assert (A6 : fanState (vars w6) = 4 /\ led3 (vars w6) = led3 (vars w)) by lia.
      destruct A6 as [A6 B6]. rewrite A6, B6 in T7.
      rewrite T7. reflexivity.
    + intros Hd.
      exact (D7 Hd (D6 Hd (D5 Hd (or_intror (D4 Hd (or_introl eq_refl)))))).
Qed.

(** ** The scheduler *)

Lemma loop_unfold (now : Z) (adc : Z -> Z) (w : World) :
  loop now adc w =
  if 16 <? ulong_sub now (millisPrev (vars w))
  then loop60 adc (stamped now w)
  else Some (tt, w).
Proof.
  unfold loop, bind, read, when, modify, ret, stamped.
  destruct (16 <? ulong_sub now (millisPrev (vars w))); reflexivity.
Qed.

(** A tick never ends in the world [loop] was called in: it appends to the
    log. *)
Lemma loop60_changes_world (now : Z) (adc : Z -> Z) (w : World) :
  loop60 adc (stamped now w) <> Some (tt, w).
Proof.
  destruct (loop60_effect adc (stamped now w)) as (w' & Hrun & _ & Hlen & _).
  rewrite Hrun. intros Heq. injection Heq as ->.
  cbn [stamped hw] in Hlen. lia.
Qed.

Lemma ulong_sub_elapsed (now prev d : Z) :
  0 <= d < ulong_modulus ->
  now mod ulong_modulus = (prev + d) mod ulong_modulus ->
  ulong_sub now prev = d.
Proof.
  intros Hd Hnow. unfold ulong_sub.
  rewrite <- Zminus_mod_idemp_l, Hnow, Zminus_mod_idemp_l.
  replace (prev + d - prev) with d by lia.
  apply Z.mod_small. exact Hd.
Qed.

(** C8: for every pair of clock readings, [loop] runs the tick (with the
    new reading as its reference) iff the wrapping difference
    now - millisPrev exceeds 16, and returns at once otherwise; the
    wrapping difference is never negative, and it is the time that passed
    (shorter than the clock's range) whether or not the clock wrapped in
    between. *)
Theorem loop_fires_iff (now : Z) (adc : Z -> Z) (w : World) :
  let elapsed := ulong_sub now (millisPrev (vars w)) in
  0 <= elapsed < ulong_modulus /\
  (16 < elapsed <->
   loop now adc w = loop60 adc (stamped now w) /\ loop now adc w <> Some (tt, w)) /\
  (elapsed <= 16 <-> loop now adc w = Some (tt, w)) /\
  (forall d, 0 <= d < ulong_modulus ->
     now mod ulong_modulus = (millisPrev (vars w) + d) mod ulong_modulus ->
     elapsed = d).
Proof.
  cbv zeta. pose proof (loop60_changes_world now adc w) as Hne.
  rewrite loop_unfold.
  split; [apply Z.mod_pos_bound; reflexivity |].
  split; [| split].
  - destruct (16 <? ulong_sub now (millisPrev (vars w))) eqn:E.
    + apply Z.ltb_lt in E. split; [intros _; split; [reflexivity | exact Hne] | intros _; exact E].
    + apply Z.ltb_ge in E. split; [lia |]. intros [_ Hno]. exfalso. apply Hno. reflexivity.
  - destruct (16 <? ulong_sub now (millisPrev (vars w))) eqn:E.
    + apply Z.ltb_lt in E. split; [lia |]. intros Heq. exfalso. exact (Hne Heq).
    + apply Z.ltb_ge in E. split; [reflexivity | intros _; exact E].
  - intros d Hd Hnow. apply ulong_sub_elapsed; assumption.
Qed.

(** ** The fan state over a whole run *)

Lemma nth_Z_out_of_bounds {A : Type} (l : list A) (i : Z) :
  i < 0 \/ Z.of_nat (length l) <= i -> nth_Z l i = None.
Proof.
  intros Hi. unfold nth_Z. destruct i as [| p | p]; [| | reflexivity].
  - apply lookup_ge_None. cbn. lia.
  - apply lookup_ge_None. lia.
Qed.

Lemma updateFan_total (w : World) :
  0 <= fanState (vars w) <= 4 -> exists w', updateFan w = Some (tt, w').
Proof.
  destruct_world w. cbn [vars fanState]. intros Hfs.
  apply fanState_cases in Hfs.
  destruct Hfs as [-> | [-> | [-> | [-> | ->]]]];
    (eexists; fw_run; reflexivity).
Qed.

(** Outside 0 .. 4 the table lookup of [updateFan] is out of bounds. *)
Lemma updateFan_out_of_range (w : World) :
  fanState (vars w) < 0 \/ 4 < fanState (vars w) -> updateFan w = None.
Proof.
  intros Hfs. unfold updateFan, bind at 1. unfold bind at 1.
  unfold fanPinStates_at, bind at 1. unfold read at 1. unfold bind at 1.
  rewrite nth_Z_out_of_bounds; [reflexivity | cbn; lia].
Qed.

Lemma setup_boot :
  exists w,
    setup boot = Some (tt, w) /\
    fanState (vars w) = 0 /\ counter (vars w) = 0.
Proof.
  eexists. split; [fw_run; reflexivity |]. split; reflexivity.
Qed.

Lemma loop_invariant (now : Z) (adc : Z -> Z) (w : World) :
  0 <= fanState (vars w) <= 4 ->
  0 <= counter (vars w) < 30 ->
  exists w',
    loop now adc w = Some (tt, w') /\
    0 <= fanState (vars w') <= 4 /\
    0 <= counter (vars w') < 30.
Proof.
  intros Hfs Hc. rewrite loop_unfold.
  destruct (16 <? ulong_sub now (millisPrev (vars w))).
  - destruct (loop60_effect adc (stamped now w)) as (w' & Hrun & Hcnt & _ & Hrange & _).
    exists w'. split; [exact Hrun |].
    cbn [stamped vars] in Hcnt, Hrange.
    change (counter (set_millisPrev now (vars w))) with (counter (vars w)) in Hcnt.
    change (fanState (set_millisPrev now (vars w))) with (fanState (vars w)) in Hrange.
    split; [exact (Hrange Hfs) |].
    rewrite Hcnt. destruct (counter (vars w) + 1 =? 30) eqn:E; [lia |].
    apply Z.eqb_neq in E. lia.
  - exists w. auto.
Qed.

Lemma loops_invariant (inputs : list (Z * (Z -> Z))) (w : World) :
  0 <= fanState (vars w) <= 4 ->
  0 <= counter (vars w) < 30 ->
  exists w',
    loops inputs w = Some (tt, w') /\
    0 <= fanState (vars w') <= 4 /\
    0 <= counter (vars w') < 30.
Proof.
  revert w. induction inputs as [| [now adc] rest IH]; intros w Hfs Hc.
  - exists w. auto.
  - destruct (loop_invariant now adc w Hfs Hc) as (w1 & Hrun & Hfs1 & Hc1).
    destruct (IH w1 Hfs1 Hc1) as (w' & Hrest & Hfs' & Hc').
    exists w'. split; [| auto].
    cbn [loops]. unfold bind. rewrite Hrun. exact Hrest.
Qed.

(** Every run completes, with the fan state in 0 .. 4 and the blink
    counter in 0 .. 29. *)
Lemma run_invariant (history : list (Z * (Z -> Z))) :
  exists w,
    run history boot = Some (tt, w) /\
    0 <= fanState (vars w) <= 4 /\
    0 <= counter (vars w) < 30.
Proof.
  destruct setup_boot as (w0 & Hsetup & Hfs0 & Hc0).
  destruct (loops_invariant history w0) as (w & Hloops & Hfs & Hc); [lia | lia |].
  exists w. split; [| auto].
  unfold run, bind. rewrite Hsetup. exact Hloops.
Qed.

(** Every assignment of [buttonPressed] to the fan state is one of
    0 .. 4. *)
Lemma buttonPressed_range (index : Z) (w : World) :
  exists w',
    buttonPressed index w = Some (tt, w') /\
    (0 <= fanState (vars w) <= 4 -> 0 <= fanState (vars w') <= 4) /\
    (0 <= index <= 3 -> 0 <= fanState (vars w') <= 4).
Proof.
  destruct (Z_le_dec 0 index) as [Hlo |];
    [destruct (Z_le_dec index 4) as [Hhi |] |].
  - assert (Hc : 0 <= index <= 4) by lia. clear Hlo Hhi.
    apply button_index_cases in Hc. destruct_world w.
    destruct Hc as [-> | [-> | [-> | [-> | ->]]]]; fw_cases.
    all: eexists; split; [reflexivity |].
    all: cbn [vars fanState]; split; intros; lia.
  - exists w. split; [apply buttonPressed_other; lia |]. split; intros; lia.
  - exists w. split; [apply buttonPressed_other; lia |]. split; intros; lia.
Qed.

(** C10: the fan state starts at 0; [buttonPressed] always returns, keeps
    a fan state of 0 .. 4 in that range and for buttons 0 .. 3 assigns
    such a value whatever the state was; so every run of the sketch
    ([setup], then any number of [loop] calls on any readings) completes
    without an out-of-bounds access and ends with a fan state of 0 .. 4,
    where [updateFan] succeeds. *)
Theorem fanState_always_in_range (inputs : list (Z * (Z -> Z))) :
  fanState (vars boot) = 0 /\
  (forall index w,
     exists w',
       buttonPressed index w = Some (tt, w') /\
       (0 <= fanState (vars w) <= 4 -> 0 <= fanState (vars w') <= 4) /\
       (0 <= index <= 3 -> 0 <= fanState (vars w') <= 4)) /\
  exists w,
    run inputs boot = Some (tt, w) /\
    0 <= fanState (vars w) <= 4 /\
    exists w', updateFan w = Some (tt, w').
Proof.
  split; [reflexivity |]. split; [exact buttonPressed_range |].
  destruct (run_invariant inputs) as (w & Hrun & Hfs & _).
  exists w. split; [exact Hrun |].
  split; [exact Hfs | exact (updateFan_total w Hfs)].
Qed.

(** ** Blinking *)

Lemma lnot_differs (x : Z) : (lnot x =? x) = false.
Proof.
  unfold lnot. destruct (x =? 0) eqn:E.
  - apply Z.eqb_eq in E. subst x. reflexivity.
  - apply Z.eqb_neq in E. apply Z.eqb_neq. lia.
Qed.

Lemma ticks_blink (adcs : list (Z -> Z)) (w : World) :
  0 <= counter (vars w) < 30 ->
  exists ws,
    ticks adcs w = Some ws /\
    length ws = length adcs /\
    (pins_distinct -> Forall led3_driven ws) /\
    (fanState (vars w) = 4 ->
     Forall (fun w' => fanState (vars w') = 4) ws ->
     changes (led3 (vars w)) (map (fun w' => led3 (vars w')) ws) =
     Z.to_nat ((counter (vars w) + Z.of_nat (length adcs)) / 30)).
Proof.
  revert w. induction adcs as [| adc rest IH]; intros w Hc.
  - exists []. split; [reflexivity |]. split; [reflexivity |].
    split; [intros _; constructor |]. intros _ _.
    cbn [length map changes]. rewrite Z.add_0_r, Z.div_small by lia. reflexivity.
  - destruct (loop60_effect adc w) as (w1 & Hrun & Hcnt & _ & _ & Hblink & Hdrv).
    assert (Hc1 : 0 <= counter (vars w1) < 30).
    { rewrite Hcnt. destruct (counter (vars w) + 1 =? 30) eqn:E; [lia |].
      apply Z.eqb_neq in E. lia. }
    destruct (IH w1 Hc1) as (ws & Hticks & Hlen & Hdrvs & Hcount).
    exists (w1 :: ws). split; [cbn [ticks]; rewrite Hrun, Hticks; reflexivity |].
    split; [cbn [length]; rewrite Hlen; reflexivity |].
    split; [intros Hd; constructor; auto |].
    intros Hfs Hall. apply Forall_cons in Hall as [Hfs1 Hall].
    cbn [map changes length]. rewrite (Hcount Hfs1 Hall), (Hblink Hfs Hfs1), Hcnt.
    rewrite Nat2Z.inj_succ.
    destruct (counter (vars w) + 1 =? 30) eqn:E.
    + apply Z.eqb_eq in E. rewrite lnot_differs.
      replace (counter (vars w) + Z.succ (Z.of_nat (length rest)))
        with (1 * 30 + (0 + Z.of_nat (length rest))) by lia.
      rewrite Z.div_add_l by lia.
      rewrite Z2Nat.inj_add; [reflexivity | lia |].
      apply Z.div_pos; lia.
    + rewrite Z.eqb_refl.
      replace (counter (vars w) + Z.succ (Z.of_nat (length rest)))
        with (counter (vars w) + 1 + Z.of_nat (length rest)) by lia.
      reflexivity.
Qed.

(** C7: in every world the sketch can reach that is in fan state 4, a
    series of ticks always completes; indicator 3's line carries the
    indicator's value after every tick; and if the fan state is 4 after
    every one of the ticks, the indicator changes exactly
    (counter + number of ticks) / 30 times, so exactly once in 30 ticks.
    Pressing a button 0 .. 3 in fan state 4 leaves that state and, by its
    [updateFan] alone, puts indicator 3 and its line at the table value of
    the new state, whatever the blink phase was. *)
Theorem blink_every_30_ticks
    (history : list (Z * (Z -> Z))) (adcs : list (Z -> Z)) (w : World) :
  run history boot = Some (tt, w) ->
  fanState (vars w) = 4 ->
  pins_distinct ->
  (exists ws,
     ticks adcs w = Some ws /\
     length ws = length adcs /\
     Forall led3_driven ws /\
     (Forall (fun w' => fanState (vars w') = 4) ws ->
      changes (led3 (vars w)) (map (fun w' => led3 (vars w')) ws) =
        Z.to_nat ((counter (vars w) + Z.of_nat (length adcs)) / 30) /\
      (length adcs = 30%nat ->
       changes (led3 (vars w)) (map (fun w' => led3 (vars w')) ws) = 1%nat))) /\
  (forall i, 0 <= i <= 3 ->
     exists w',
       buttonPressed i w = Some (tt, w') /\
       fanState (vars w') <> 4 /\
       fanPinStates_at 6 w' = Some (led3 (vars w'), w') /\
       led3_driven w').
Proof.
  intros Hreach Hfs Hd.
  assert (Hc : 0 <= counter (vars w) < 30).
  { destruct (run_invariant history) as (w0 & Hrun & _ & Hc).
    rewrite Hrun in Hreach. injection Hreach as <-. exact Hc. }
  clear Hreach. split.
  - destruct (ticks_blink adcs w Hc) as (ws & Hticks & Hlen & Hdrv & Hcount).
    exists ws. split; [exact Hticks |]. split; [exact Hlen |].
    split; [exact (Hdrv Hd) |].
    intros Hall. split; [exact (Hcount Hfs Hall) |].
    intros H30. rewrite (Hcount Hfs Hall), H30.
    replace (counter (vars w) + Z.of_nat 30) with (1 * 30 + counter (vars w)) by lia.
    rewrite Z.div_add_l, Z.div_small by lia. reflexivity.
  - intros i Hi. clear Hc. revert Hfs Hd. destruct_world w.
    cbn [vars fanState]. intros -> Hd.
    assert (Hcases : i = 0 \/ i = 1 \/ i = 2 \/ i = 3) by lia.
    split_distinct Hd.
    destruct Hcases as [-> | [-> | [-> | ->]]];
      (eexists;
       split; [fw_run; try change (4 =? 3) with false; fw_run; reflexivity |];
       split; [cbn [vars fanState]; intros Heq; discriminate Heq |];
       split; [fw_run; reflexivity |];
       fw_run; fw_lines; reflexivity).
Qed.

End Properties.

(** C1 (as stated) fails: in state Off the table lights no indicator, where
    the specification's row has ind0 lit. *)
Lemma updateFan_Off_differs_from_spec_row :
  exists w',
    @updateFan atmega328_pins boot = Some (tt, w') /\
    fanState (vars boot) = 0 /\
    fan_indicators (vars w') = (false, false, false, false) /\
    spec_indicator_row 0 = Some (true, false, false, false) /\
    Some (fan_indicators (vars w')) <> spec_indicator_row (fanState (vars boot)).
Proof.
  eexists. split; [vm_compute; reflexivity |]. vm_compute. repeat split; discriminate.
Qed.

Lemma updateFan_indicators_witness :
  0 <= fanState (vars (world_in_fan_state 3)) <= 4 /\
  @pins_distinct atmega328_pins /\
  exists w',
    @updateFan atmega328_pins (world_in_fan_state 3) = Some (tt, w') /\
    fan_indicators (vars w') = (true, false, false, true).
Proof.
  assert (Hfs : 0 <= fanState (vars (world_in_fan_state 3)) <= 4) by (cbn; lia).
  split; [exact Hfs |]. split; [exact atmega328_pins_distinct |].
  destruct (@updateFan_indicators atmega328_pins (world_in_fan_state 3) Hfs
              atmega328_pins_distinct) as (w' & Hrun & _ & Hind & _).
  exists w'. split; [exact Hrun | exact Hind].
Defined.

Lemma updateFan_relays_witness :
  0 <= fanState (vars (world_in_fan_state 4)) <= 4 /\
  @pins_distinct atmega328_pins /\
  exists w',
    @updateFan atmega328_pins (world_in_fan_state 4) = Some (tt, w') /\
    @relay_lines (hw w') = (Some 1, Some 0, Some 1).
Proof.
  assert (Hfs : 0 <= fanState (vars (world_in_fan_state 4)) <= 4) by (cbn; lia).
  split; [exact Hfs |]. split; [exact atmega328_pins_distinct |].
  destruct (@updateFan_relays atmega328_pins (world_in_fan_state 4) Hfs
              atmega328_pins_distinct) as (w' & Hrun & Hrel).
  exists w'. split; [exact Hrun | exact Hrel].
Defined.

(** C4 (as stated) fails: the specification has indicator 4 asserted (lit)
    when the light is off; after the first toggle the light is on and the
    indicator is lit. *)
Lemma toggleLight_indicator4_differs_from_spec :
  exists w',
    @toggleLight atmega328_pins boot = Some (tt, w') /\
    lightState (vars w') = true /\
    statusLedStates (vars w') !!! 4%fin = LOW /\
    lit (statusLedStates (vars w') !!! 4%fin) = true /\
    spec_indicator4_lit (lightState (vars w')) = false /\
    lit (statusLedStates (vars w') !!! 4%fin) <>
      spec_indicator4_lit (lightState (vars w')).
Proof.
  eexists. split; [vm_compute; reflexivity |]. vm_compute.
  repeat split. intros Heq. discriminate Heq.
Qed.

Lemma toggleLight_consistent_witness :
  @pins_distinct atmega328_pins /\
  exists w',
    @toggleLight atmega328_pins boot = Some (tt, w') /\
    lightState (vars w') = true /\
    lit (statusLedStates (vars w') !!! 4%fin) = true /\
    @companion_signal (hw w') = Some Floating.
Proof.
  split; [exact atmega328_pins_distinct |].
  destruct (@toggleLight_consistent atmega328_pins boot atmega328_pins_distinct)
    as (w' & Hrun & _ & Hlight & _ & Hlit & _ & _ & Hsig).
  exists w'. split; [exact Hrun |]. split; [exact Hlight |].
  split; [rewrite Hlit; exact Hlight |].
  rewrite Hsig, Hlight. reflexivity.
Defined.

Lemma pollButton_press_iff_witness :
  0 <= 1 <= 4 /\
  exists w_r w',
    @readButtonState atmega328_pins adc_pressed 1 idle_world = Some (tt, w_r) /\
    @pollButton atmega328_pins adc_pressed 1 idle_world = Some (tt, w') /\
    @buttonPressed atmega328_pins 1 w_r = Some (tt, w').
Proof.
  assert (Hi : 0 <= 1 <= 4) by lia.
  split; [exact Hi |].
  destruct (@pollButton_press_iff atmega328_pins adc_pressed 1 idle_world Hi)
    as (pin & prev & w_r & w' & Hpin & Hprev & Hread & _ & _ & Hpoll & _ & Hpress & _).
  exists w_r, w'. split; [exact Hread |]. split; [exact Hpoll |].
  apply Hpress.
  injection Hpin as <-. injection Hprev as <-. reflexivity.
Defined.

Lemma updateLeds_idempotent_witness :
  (-1 = -1 \/ 0 <= -1 <= 4) /\
  exists ops,
    forall n log,
      times n (@updateLeds atmega328_pins (-1)) {| vars := boot_globals; hw := log |} =
      Some (tt, {| vars := boot_globals; hw := concat (replicate n ops) ++ log |}).
Proof.
  assert (Hi : -1 = -1 \/ 0 <= -1 <= 4) by (left; reflexivity).
  split; [exact Hi |].
  destruct (@updateLeds_idempotent atmega328_pins (-1) boot_globals Hi)
    as (ops & Hrun & _).
  exists ops. exact Hrun.
Defined.

Lemma blink_every_30_ticks_witness :
  @run atmega328_pins highblink_history boot = Some (tt, highblink_world) /\
  fanState (vars highblink_world) = 4 /\
  @pins_distinct atmega328_pins /\
  exists ws,
    @ticks atmega328_pins (replicate 30 adc_idle) highblink_world = Some ws /\
    Forall (fun w' => fanState (vars w') = 4) ws /\
    changes (led3 (vars highblink_world)) (map (fun w' => led3 (vars w')) ws) = 1%nat.
Proof.
  assert (Hrun : @run atmega328_pins highblink_history boot =
                 Some (tt, highblink_world)) by (vm_compute; reflexivity).
  assert (Hfs : fanState (vars highblink_world) = 4) by (vm_compute; reflexivity).
  split; [exact Hrun |]. split; [exact Hfs |].
  split; [exact atmega328_pins_distinct |].
  destruct (@blink_every_30_ticks atmega328_pins highblink_history
              (replicate 30 adc_idle) highblink_world Hrun Hfs
              atmega328_pins_distinct)
    as [(ws & Hticks & _ & _ & Hcount) _].
  exists ws. split; [exact Hticks |].
  assert (Hall : Forall (fun w' => fanState (vars w') = 4) ws).
  { vm_compute in Hticks. injection Hticks as <-.
    repeat (constructor; [reflexivity |]). constructor. }
  split; [exact Hall |].
  apply (Hcount Hall). reflexivity.
Defined.

(** ** Worked readings *)

(** A drop of exactly 300 is no press; a drop of 301 is one (here on
    channel 1, from a previous sample of 1020). *)
Example drop_300_is_no_press :
  exists w',
    @pollButton atmega328_pins (fun _ => 720) 1 idle_world = Some (tt, w') /\
    @readButtonState atmega328_pins (fun _ => 720) 1 idle_world = Some (tt, w') /\
    fanState (vars w') = 0.
Proof. eexists. split; [vm_compute; reflexivity |]. split; vm_compute; reflexivity. Qed.

Example drop_301_is_a_press :
  exists w',
    @pollButton atmega328_pins (fun _ => 719) 1 idle_world = Some (tt, w') /\
    fanState (vars w') = 1.
Proof. eexists. split; vm_compute; reflexivity. Qed.

(** A companion line that rises by 601 and then stays high toggles the
    light once: the light output is written once, and the light is on. *)
Example rise_601_toggles_once :
  exists w',
    (@pollCompanion atmega328_pins (fun _ => 601) >>
     @pollCompanion atmega328_pins (fun _ => 601) >>
     @pollCompanion atmega328_pins (fun _ => 601)) boot = Some (tt, w') /\
    lightState (vars w') = true /\
    writes_to lightPin (hw w') = [1].
Proof. eexists. split; [vm_compute; reflexivity |]. split; reflexivity. Qed.

(** A rise of exactly 600 is no request. *)
Example rise_600_is_no_request :
  @pollCompanion atmega328_pins (fun _ => 600) boot =
  Some (tt, companion_sampled 600 boot).
Proof. reflexivity. Qed.

(** The clock wrapping between two [loop] calls: 20 ms pass from
    2^32 - 5 to 15, and the tick runs. *)
Example loop_across_wraparound :
  ulong_sub 15 (ulong_modulus - 5) = 20 /\
  @loop atmega328_pins 15 adc_idle (stamped (ulong_modulus - 5) idle_world) =
  @loop60 atmega328_pins adc_idle (stamped 15 idle_world).
Proof. split; reflexivity. Qed.

(** * Further properties of the sketch *)

(** Symbolic execution of the sketch on a world whose parts are variables:
    unfolds the sketch and the monad, leaves integer arithmetic, symbolic
    comparisons and the pin names alone. *)
Ltac sx_unfold :=
  cbv [updateFan fanPinStates_at fanPinStates writeLed updateLight toggleLight
       buttonPressed readButtonState pollButton pollCompanion blinkStep
       loop60 loop setup loops run
       buttonLedPins lightPin fanPin1 fanPin2 fanPin3 espLightStatePin
       espLightTogglePin
       bind ret lift read modify emit when pinMode digitalWrite
       delayMicroseconds load store arr_get arr_set bl_index nth_Z
       set_statusLedStates set_bCurrVals set_bPrevVals set_lightState
       set_fanState set_espLightTogglePrev set_espLightToggleCurr
       set_millisPrev set_counter
       vars hw statusLedStates bCurrVals bPrevVals lightState fanState
       espLightTogglePrev espLightToggleCurr millisPrev counter
       lookup list_lookup lookup_total vector_lookup_total vec_S_inv vinsert
       Z.to_nat Pos.to_nat Pos.iter_op Init.Nat.add
       fan_indicators relay_lines led_line companion_signal lit LOW HIGH negb
       led3 led3_driven stamped companion_sampled
       button_pin sample pressed requested default from_option id
       fan_outputs_ok light_outputs_ok led_line_ok led_lines_ok
       fixed_modes_ok outputs_ok].

(** Reduces the comparisons of two literals that symbolic execution
    leaves behind. *)
Ltac closed_tests :=
  repeat match goal with
         | |- context [?a =? ?b] =>
             let v := eval vm_compute in (a =? b) in
             lazymatch v with
             | true => change (a =? b) with true
             | false => change (a =? b) with false
             end
         end.

Ltac sx_step :=
  sx_unfold;
  repeat match goal with
         | |- context [updateLeds 3] => rewrite updateLeds_3
         | |- context [updateLeds 4] => rewrite updateLeds_4
         | |- context [updateLeds_all] => rewrite updateLeds_all_eq
         | |- context [for_loop blCount 0] => rewrite for_loop_blCount
         end;
  closed_tests.

Ltac sx_run := repeat progress sx_step.

(** Symbolic execution with a case split on every test that stays
    symbolic. *)
Ltac sx_cases :=
  repeat (sx_run;
          match goal with
          | |- context [if ?b then _ else _] => destruct b eqn:?
          end);
  sx_run.

(** Evaluates the table lookups at a literal fan state. *)
Ltac closed_entries :=
  repeat match goal with
         | |- context [table_entry ?a ?b] =>
             let v := eval vm_compute in (table_entry a b) in
             lazymatch v with
             | Some _ => change (table_entry a b) with v
             end
         end.

Ltac sx_lines := repeat progress (cbn [pin_level pin_mode]; eqb_pins).

Section TickProperties.
Context {pins : AnalogPins}.

(** One pass of the button loop, on the globals: the channel's samples are
    shifted, and a press acts on the fan state (buttons 0 .. 3) or the
    light state (button 4); nothing else changes. *)
Lemma pollButton_globals (adc : Z -> Z) (i : Z) (w : World) :
  0 <= i <= 4 ->
  exists w',
    pollButton adc i w = Some (tt, w') /\
    arr_set (bPrevVals (vars w)) i (sample (bCurrVals (vars w)) i) =
      Some (bPrevVals (vars w')) /\
    arr_set (bCurrVals (vars w)) i (adc (button_pin i)) =
      Some (bCurrVals (vars w')) /\
    fanState (vars w') =
      (if pressed adc (vars w) i
       then match i with
            | 3 => if fanState (vars w) =? 3 then 4 else 3
            | 4 => fanState (vars w)
            | _ => i
            end
       else fanState (vars w)) /\
    lightState (vars w') =
      (if pressed adc (vars w) i
       then match i with
            | 4 => negb (lightState (vars w))
            | _ => lightState (vars w)
            end
       else lightState (vars w)) /\
    espLightTogglePrev (vars w') = espLightTogglePrev (vars w) /\
    espLightToggleCurr (vars w') = espLightToggleCurr (vars w) /\
    millisPrev (vars w') = millisPrev (vars w).
Proof.
  intros Hi. apply button_index_cases in Hi. destruct_world w.
  destruct Hi as [-> | [-> | [-> | [-> | ->]]]]; sx_cases.
  all: eexists; split; [reflexivity |]; repeat split.
Qed.

Lemma pollCompanion_globals (adc : Z -> Z) (w : World) :
  exists w',
    pollCompanion adc w = Some (tt, w') /\
    bPrevVals (vars w') = bPrevVals (vars w) /\
    bCurrVals (vars w') = bCurrVals (vars w) /\
    fanState (vars w') = fanState (vars w) /\
    lightState (vars w') =
      (if requested adc (vars w) then negb (lightState (vars w))
       else lightState (vars w)) /\
    espLightTogglePrev (vars w') = espLightToggleCurr (vars w) /\
    espLightToggleCurr (vars w') = adc espLightTogglePin /\
    millisPrev (vars w') = millisPrev (vars w).
Proof.
  destruct_world w. sx_cases.
  all: eexists; split; [reflexivity |]; repeat split.
Qed.

Lemma blinkStep_globals (w : World) :
  exists w',
    blinkStep w = Some (tt, w') /\
    bPrevVals (vars w') = bPrevVals (vars w) /\
    bCurrVals (vars w') = bCurrVals (vars w) /\
    fanState (vars w') = fanState (vars w) /\
    lightState (vars w') = lightState (vars w) /\
    espLightTogglePrev (vars w') = espLightTogglePrev (vars w) /\
    espLightToggleCurr (vars w') = espLightToggleCurr (vars w) /\
    millisPrev (vars w') = millisPrev (vars w).
Proof.
  destruct_world w. sx_cases.
  all: eexists; split; [reflexivity |]; repeat split.
Qed.

(** Uses one part's account of the globals: names the parts of the world it
    ends in and substitutes what the account says about them. *)
Ltac use_part H w' :=
  destruct H as (w' & ? & ? & ? & ? & ? & ? & ? & ?);
  destruct_world w'; intros;
  let G := fresh "G" in
  match goal with |- ?goal => set (G := goal) end;
  repeat match goal with
         | Hf : _ = _ |- _ =>
             lazymatch type of Hf with
             | pollButton _ _ _ = _ => fail
             | pollCompanion _ _ = _ => fail
             | blinkStep _ = _ => fail
             | _ => revert Hf
             end
         end;
  sx_unfold; intros; subst G; simplify_eq.

(** One tick on the globals. *)
Lemma loop60_globals (adc : Z -> Z) (w : World) :
  exists w',
    loop60 adc w = Some (tt, w') /\
    bPrevVals (vars w') = bCurrVals (vars w) /\
    bCurrVals (vars w') = [# adc A4; adc A5; adc A1; adc A2; adc A3] /\
    espLightTogglePrev (vars w') = espLightToggleCurr (vars w) /\
    espLightToggleCurr (vars w') = adc espLightTogglePin /\
    millisPrev (vars w') = millisPrev (vars w) /\
    fanState (vars w') =
      (if pressed adc (vars w) 3
       then if pressed adc (vars w) 2 then 3
            else if pressed adc (vars w) 1 then 3
            else if pressed adc (vars w) 0 then 3
            else if fanState (vars w) =? 3 then 4 else 3
       else if pressed adc (vars w) 2 then 2
       else if pressed adc (vars w) 1 then 1
       else if pressed adc (vars w) 0 then 0
       else fanState (vars w)) /\
    lightState (vars w') =
      xorb (xorb (lightState (vars w)) (pressed adc (vars w) 4))
           (requested adc (vars w)).
Proof.
  destruct_world w.
  assert (H0 : 0 <= 0 <= 4) by lia. assert (H1 : 0 <= 1 <= 4) by lia.
  assert (H2 : 0 <= 2 <= 4) by lia. assert (H3 : 0 <= 3 <= 4) by lia.
  assert (H4 : 0 <= 4 <= 4) by lia.
  match goal with |- context [loop60 adc ?W] => set (w0 := W) end.
  pose proof (pollButton_globals adc 0 w0 H0) as P. subst w0. use_part P w1.
  match goal with Hr : pollButton adc 0 _ = Some (_, ?W) |- _ => set (w0 := W) in * end.
  pose proof (pollButton_globals adc 1 w0 H1) as P. subst w0. use_part P w2.
  match goal with Hr : pollButton adc 1 _ = Some (_, ?W) |- _ => set (w0 := W) in * end.
  pose proof (pollButton_globals adc 2 w0 H2) as P. subst w0. use_part P w3.
  match goal with Hr : pollButton adc 2 _ = Some (_, ?W) |- _ => set (w0 := W) in * end.
  pose proof (pollButton_globals adc 3 w0 H3) as P. subst w0. use_part P w4.
  match goal with Hr : pollButton adc 3 _ = Some (_, ?W) |- _ => set (w0 := W) in * end.
  pose proof (pollButton_globals adc 4 w0 H4) as P. subst w0. use_part P w5.
  match goal with Hr : pollButton adc 4 _ = Some (_, ?W) |- _ => set (w0 := W) in * end.
  pose proof (pollCompanion_globals adc w0) as P. subst w0. use_part P w6.
  match goal with Hr : pollCompanion adc _ = Some (_, ?W) |- _ => set (w0 := W) in * end.
  pose proof (blinkStep_globals w0) as P. subst w0. use_part P w7.
  eexists. split.
  - unfold loop60. rewrite for_loop_blCount. unfold bind, ret.
    repeat (match goal with
            | Hr : _ = Some (tt, _) |- _ => rewrite Hr; clear Hr
            end; cbv beta iota).
    reflexivity.
  - repeat match goal with
           | Hr : _ = Some (tt, _) |- _ => clear Hr
           end.
    sx_unfold. repeat split.
    + repeat match goal with
             | |- context [if ?a <? ?b then _ else _] => destruct (a <? b) eqn:?
             end;
        closed_tests; try reflexivity;
        match goal with
        | |- context [if ?b then _ else _] => destruct b
        end; reflexivity.
    + repeat match goal with
             | |- context [if ?a <? ?b then _ else _] => destruct (a <? b) eqn:?
             end;
        match goal with
        | l : bool |- _ => destruct l
        end; reflexivity.
Qed.

(** ** The outputs follow the globals *)

Ltac split_outputs H :=
  destruct H as
    (((? & ?) & ? & ? & ? & ? & ? & ? & ?) & (? & ? & ?) &
     ((? & ?) & (? & ?) & (? & ?) & (? & ?) & (? & ?)) &
     (? & ? & ? & ? & ?)).

(** Keeps the statement about the outputs folded while the part runs. *)
Ltac hide_outputs :=
  match goal with
  | |- exists w', _ = _ /\ @?P w' => set (Q := P)
  end.

Ltac close_outputs :=
  sx_lines; closed_entries; repeat split;
  first [ assumption | reflexivity | apply Z.leb_le; reflexivity
        | left; reflexivity | idtac ].

Lemma pollButton_outputs (adc : Z -> Z) (i : Z) (w : World) :
  pins_distinct ->
  0 <= i <= 4 ->
  exists w',
    pollButton adc i w = Some (tt, w') /\
    (outputs_ok w -> outputs_ok w').
Proof.
  intros Hd Hi. apply button_index_cases in Hi. destruct_world w.
  split_distinct Hd. hide_outputs.
  destruct Hi as [-> | [-> | [-> | [-> | ->]]]]; sx_cases.
  all: eexists; split; [reflexivity |].
  all: subst Q; cbv beta; sx_run.
  all: intros Hok; split_outputs Hok.
  all: close_outputs.
Qed.

Lemma pollCompanion_outputs (adc : Z -> Z) (w : World) :
  pins_distinct ->
  exists w',
    pollCompanion adc w = Some (tt, w') /\
    (outputs_ok w -> outputs_ok w').
Proof.
  intros Hd. destruct_world w. split_distinct Hd. hide_outputs. sx_cases.
  all: eexists; split; [reflexivity |].
  all: subst Q; cbv beta; sx_run.
  all: intros Hok; split_outputs Hok.
  all: close_outputs.
Qed.

Lemma blinkStep_outputs (w : World) :
  pins_distinct ->
  exists w',
    blinkStep w = Some (tt, w') /\
    (outputs_ok w -> outputs_ok w').
Proof.
  intros Hd. destruct_world w. split_distinct Hd. hide_outputs. sx_cases.
  all: eexists; split; [reflexivity |].
  all: subst Q; cbv beta; sx_run.
  all: intros Hok; split_outputs Hok.
  all: close_outputs.
  all: match goal with
       | Hb : (_ =? 4) = true |- _ => apply Z.eqb_eq in Hb; subst
       end.
  all: match goal with
       | Hor : _ \/ _ |- _ =>
           destruct Hor as [Hor | [_ Hor]];
           first [ left; exact Hor
                 | right; vm_compute in Hor; injection Hor as ->;
                   split; reflexivity ]
       end.
Qed.
Lemma loop60_outputs (adc : Z -> Z) (w : World) :
  pins_distinct ->
  exists w',
    loop60 adc w = Some (tt, w') /\ (outputs_ok w -> outputs_ok w').
Proof.
  intros Hd.
  destruct (pollButton_outputs adc 0 w Hd) as (w1 & R1 & K1); [lia |].
  destruct (pollButton_outputs adc 1 w1 Hd) as (w2 & R2 & K2); [lia |].
  destruct (pollButton_outputs adc 2 w2 Hd) as (w3 & R3 & K3); [lia |].
  destruct (pollButton_outputs adc 3 w3 Hd) as (w4 & R4 & K4); [lia |].
  destruct (pollButton_outputs adc 4 w4 Hd) as (w5 & R5 & K5); [lia |].
  destruct (pollCompanion_outputs adc w5 Hd) as (w6 & R6 & K6).
  destruct (blinkStep_outputs w6 Hd) as (w7 & R7 & K7).
  exists w7. split.
  - unfold loop60. rewrite for_loop_blCount. unfold bind, ret.
    rewrite R1, R2, R3, R4, R5, R6. exact R7.
  - intros Hok. exact (K7 (K6 (K5 (K4 (K3 (K2 (K1 Hok))))))).
Qed.

Lemma loop_outputs (now : Z) (adc : Z -> Z) (w : World) :
  pins_distinct ->
  exists w',
    loop now adc w = Some (tt, w') /\ (outputs_ok w -> outputs_ok w').
Proof.
  intros Hd. rewrite loop_unfold.
  destruct (16 <? ulong_sub now (millisPrev (vars w))).
  - destruct (loop60_outputs adc (stamped now w) Hd) as (w' & Hrun & Hkeep).
    exists w'. split; [exact Hrun |]. intros Hok. apply Hkeep.
    destruct w as [[]]. exact Hok.
  - exists w. split; [reflexivity | auto].
Qed.

Lemma loops_outputs (inputs : list (Z * (Z -> Z))) (w : World) :
  pins_distinct ->
  outputs_ok w ->
  exists w', loops inputs w = Some (tt, w') /\ outputs_ok w'.
Proof.
  intros Hd. revert w. induction inputs as [| [now adc] rest IH]; intros w Hok.
  - exists w. split; [reflexivity | exact Hok].
  - destruct (loop_outputs now adc w Hd) as (w1 & Hrun & Hkeep).
    destruct (IH w1 (Hkeep Hok)) as (w' & Hrest & Hok').
    exists w'. split; [| exact Hok'].
    cbn [loops]. unfold bind. rewrite Hrun. exact Hrest.
Qed.

(** [setup] drives every line to what the globals say, whatever the lines
    were before, and changes no global but the indicators. *)
Lemma setup_outputs (w : World) :
  pins_distinct ->
  0 <= fanState (vars w) <= 4 ->
  exists w',
    setup w = Some (tt, w') /\
    fanState (vars w') = fanState (vars w) /\
    lightState (vars w') = lightState (vars w) /\
    counter (vars w') = counter (vars w) /\
    millisPrev (vars w') = millisPrev (vars w) /\
    bCurrVals (vars w') = bCurrVals (vars w) /\
    bPrevVals (vars w') = bPrevVals (vars w) /\
    outputs_ok w'.
Proof.
  intros Hd Hfs. apply fanState_cases in Hfs.
  destruct w as [[leds cur prev lgt fs ? ? ? ?] ?]. cbn in Hfs.
  inv_vec leds; intros. inv_vec cur; intros. inv_vec prev; intros.
  split_distinct Hd. destruct lgt.
  all: destruct Hfs as [-> | [-> | [-> | [-> | ->]]]].
  all: eexists; split; [sx_run; reflexivity |].
  all: do 6 (split; [reflexivity |]).
  all: sx_run; close_outputs.
Qed.

Lemma run_outputs (history : list (Z * (Z -> Z))) :
  pins_distinct ->
  exists w, run history boot = Some (tt, w) /\ outputs_ok w.
Proof.
  intros Hd.
  destruct (setup_outputs boot Hd) as (w0 & Hsetup & _ & _ & _ & _ & _ & _ & Hok0);
    [cbn; lia |].
  destruct (loops_outputs history w0 Hd Hok0) as (w & Hloops & Hok).
  exists w. split; [| exact Hok].
  unfold run, bind. rewrite Hsetup. exact Hloops.
Qed.

(** ** Theorems *)

(** X1: the fan state after a tick, from the buttons pressed in it: the
    buttons are taken in the order 0 .. 4, so of several pressed at once
    the highest of 0 .. 3 decides, and button 3 gives state 4 only when it
    alone is pressed in state 3.  State 4 is therefore entered in a tick
    only from state 3 and only with button 3 pressed. *)
Theorem tick_fan_state (adc : Z -> Z) (w : World) :
  exists w',
    loop60 adc w = Some (tt, w') /\
    fanState (vars w') =
      (if pressed adc (vars w) 3
       then if pressed adc (vars w) 2 then 3
            else if pressed adc (vars w) 1 then 3
            else if pressed adc (vars w) 0 then 3
            else if fanState (vars w) =? 3 then 4 else 3
       else if pressed adc (vars w) 2 then 2
       else if pressed adc (vars w) 1 then 1
       else if pressed adc (vars w) 0 then 0
       else fanState (vars w)) /\
    (fanState (vars w') = 4 ->
     fanState (vars w) = 4 \/
     (fanState (vars w) = 3 /\ pressed adc (vars w) 3 = true)).
Proof.
  destruct (loop60_globals adc w) as (w' & Hrun & _ & _ & _ & _ & _ & Hfan & _).
  exists w'. split; [exact Hrun |]. split; [exact Hfan |].
  rewrite Hfan.
  destruct (pressed adc (vars w) 3), (pressed adc (vars w) 2),
    (pressed adc (vars w) 1), (pressed adc (vars w) 0);
    try (intros Heq; discriminate Heq).
  - destruct (fanState (vars w) =? 3) eqn:E; intros Heq; [| discriminate Heq].
    apply Z.eqb_eq in E. right. split; [exact E | reflexivity].
  - intros Heq. left. exact Heq.
Qed.

(** X2: the light state after a tick is the old one, inverted once for
    button 4 pressed and once for a companion request: both in the same
    tick cancel. *)
Theorem tick_light_state (adc : Z -> Z) (w : World) :
  exists w',
    loop60 adc w = Some (tt, w') /\
    lightState (vars w') =
      xorb (xorb (lightState (vars w)) (pressed adc (vars w) 4))
           (requested adc (vars w)).
Proof.
  destruct (loop60_globals adc w) as (w' & Hrun & _ & _ & _ & _ & _ & _ & Hlight).
  exists w'. split; [exact Hrun | exact Hlight].
Qed.

(** X3: a tick shifts every sample: the previous button samples become the
    old current ones, the current ones the readings of the five button
    lines, and likewise for the request line; it leaves [millisPrev]
    alone. *)
Theorem tick_samples (adc : Z -> Z) (w : World) :
  exists w',
    loop60 adc w = Some (tt, w') /\
    bPrevVals (vars w') = bCurrVals (vars w) /\
    (forall i, 0 <= i <= 4 ->
       sample (bCurrVals (vars w')) i = adc (button_pin i)) /\
    espLightTogglePrev (vars w') = espLightToggleCurr (vars w) /\
    espLightToggleCurr (vars w') = adc espLightTogglePin /\
    millisPrev (vars w') = millisPrev (vars w).
Proof.
  destruct (loop60_globals adc w)
    as (w' & Hrun & Hprev & Hcur & Hep & Hec & Hm & _ & _).
  exists w'. split; [exact Hrun |]. split; [exact Hprev |].
  split; [| auto].
  intros i Hi. rewrite Hcur. apply button_index_cases in Hi.
  destruct Hi as [-> | [-> | [-> | [-> | ->]]]]; reflexivity.
Qed.

(** X4: presses and requests are edges: a second tick on the same readings
    changes neither the fan state nor the light state, however long a
    button is held or the request line stays high. *)
Theorem held_readings_do_not_repeat (adc : Z -> Z) (w : World) :
  exists w1 w2,
    loop60 adc w = Some (tt, w1) /\
    loop60 adc w1 = Some (tt, w2) /\
    fanState (vars w2) = fanState (vars w1) /\
    lightState (vars w2) = lightState (vars w1).
Proof.
  destruct (loop60_globals adc w)
    as (w1 & Hrun1 & _ & Hcur & _ & Hec & _ & _ & _).
  destruct (loop60_globals adc w1)
    as (w2 & Hrun2 & _ & _ & _ & _ & _ & Hfan & Hlight).
  exists w1, w2. split; [exact Hrun1 |]. split; [exact Hrun2 |].
  assert (Hno : forall i, 0 <= i <= 4 -> pressed adc (vars w1) i = false).
  { intros i Hi. unfold pressed. rewrite Hcur. apply button_index_cases in Hi.
    destruct Hi as [-> | [-> | [-> | [-> | ->]]]];
      cbv [sample button_pin arr_get bl_index nth_Z buttonLedPins default
           from_option id lookup list_lookup lookup_total vector_lookup_total
           vec_S_inv Z.to_nat Pos.to_nat Pos.iter_op Init.Nat.add];
      rewrite Z.sub_diag; reflexivity. }
  assert (Hnr : requested adc (vars w1) = false).
  { unfold requested. rewrite Hec, Z.sub_diag. reflexivity. }
  rewrite Hfan, Hlight, Hnr, !Hno by lia.
  split; [reflexivity |]. destruct (lightState (vars w1)); reflexivity.
Qed.

(** X5: when [loop] runs the tick it takes the clock reading itself as the
    new reference (no drift correction), and otherwise keeps the old one;
    so after a tick no later call runs another one until the clock is more
    than 16 ms past that reading. *)
Theorem loop_reference (now : Z) (adc : Z -> Z) (w : World) :
  exists w',
    loop now adc w = Some (tt, w') /\
    millisPrev (vars w') =
      (if 16 <? ulong_sub now (millisPrev (vars w)) then now
       else millisPrev (vars w)) /\
    (16 < ulong_sub now (millisPrev (vars w)) ->
     forall now' adc',
       ulong_sub now' now <= 16 -> loop now' adc' w' = Some (tt, w')).
Proof.
  rewrite loop_unfold.
  destruct (16 <? ulong_sub now (millisPrev (vars w))) eqn:E.
  - destruct (loop60_globals adc (stamped now w))
      as (w' & Hrun & _ & _ & _ & _ & Hm & _).
    exists w'. split; [exact Hrun |].
    assert (Hnow : millisPrev (vars w') = now) by (rewrite Hm; reflexivity).
    split; [exact Hnow |].
    intros _ now' adc' Hshort. rewrite loop_unfold, Hnow.
    destruct (16 <? ulong_sub now' now) eqn:E'; [| reflexivity].
    apply Z.ltb_lt in E'. lia.
  - exists w. split; [reflexivity |]. split; [reflexivity |].
    apply Z.ltb_ge in E. intros Hlong. lia.
Qed.

(** X6: reading a channel 0 .. 4 shifts that channel's samples and changes
    no other global (the other channels' samples, the indicators, the fan
    and light state, the companion samples, [millisPrev] and the blink
    counter stay), and gives the line back: it ends in output mode with the
    indicator's value written to it.  Any other index is outside the
    arrays. *)
Theorem readButtonState_restores (adc : Z -> Z) (i : Z) (w : World) :
  (0 <= i <= 4 ->
   exists w',
     readButtonState adc i w = Some (tt, w') /\
     arr_set (bPrevVals (vars w)) i (sample (bCurrVals (vars w)) i) =
       Some (bPrevVals (vars w')) /\
     arr_set (bCurrVals (vars w)) i (adc (button_pin i)) =
       Some (bCurrVals (vars w')) /\
     statusLedStates (vars w') = statusLedStates (vars w) /\
     fanState (vars w') = fanState (vars w) /\
     lightState (vars w') = lightState (vars w) /\
     espLightTogglePrev (vars w') = espLightTogglePrev (vars w) /\
     espLightToggleCurr (vars w') = espLightToggleCurr (vars w) /\
     millisPrev (vars w') = millisPrev (vars w) /\
     counter (vars w') = counter (vars w) /\
     led_line_ok w' i) /\
  (i < 0 \/ 4 < i -> readButtonState adc i w = None).
Proof.
  split.
  - intros Hi. apply button_index_cases in Hi. destruct_world w.
    destruct Hi as [-> | [-> | [-> | [-> | ->]]]];
      (eexists; split; [sx_run; reflexivity |];
       do 9 (split; [reflexivity |]);
       sx_run; split; sx_lines; reflexivity).
  - intros Hi. unfold readButtonState, bind at 1. unfold lift.
    rewrite nth_Z_out_of_bounds; [reflexivity | cbn; lia].
Qed.

(** X7: in every world the sketch reaches, the fan state is 0 .. 4, the
    three relay lines carry the relay columns of its table row, and
    indicators 0 .. 2 the indicator columns; indicator 3 carries its
    column too, or in state 4 the inverse (the blink). *)
Theorem run_fan_outputs (history : list (Z * (Z -> Z))) :
  pins_distinct ->
  exists w, run history boot = Some (tt, w) /\ fan_outputs_ok w.
Proof.
  intros Hd. destruct (run_outputs history Hd) as (w & Hrun & Hfan & _).
  exists w. split; [exact Hrun | exact Hfan].
Qed.

(** X8: in every world the sketch reaches, the light output carries
    [lightState], indicator 4 is its negation, and the companion line is
    floating when the light is on and driven low when it is off. *)
Theorem run_light_outputs (history : list (Z * (Z -> Z))) :
  pins_distinct ->
  exists w, run history boot = Some (tt, w) /\ light_outputs_ok w.
Proof.
  intros Hd. destruct (run_outputs history Hd) as (w & Hrun & _ & Hlight & _).
  exists w. split; [exact Hrun | exact Hlight].
Qed.

(** X9: in every world the sketch reaches (that is, between [loop] calls),
    each of the five multiplexed lines is back in output mode with its
    indicator's stored value on it, the light and relay lines are in
    output mode and the request line is an input. *)
Theorem run_line_modes (history : list (Z * (Z -> Z))) :
  pins_distinct ->
  exists w,
    run history boot = Some (tt, w) /\ led_lines_ok w /\ fixed_modes_ok w.
Proof.
  intros Hd. destruct (run_outputs history Hd) as (w & Hrun & _ & _ & Hleds & Hfix).
  exists w. split; [exact Hrun |]. split; [exact Hleds | exact Hfix].
Qed.

(** X10: from any world with a fan state of 0 .. 4, [setup] returns,
    changes no global but the indicators, and leaves every line as the
    globals say (relays and indicators at the table row, light output,
    indicator 4 and companion line at the light state, all modes set),
    whatever was on the lines before. *)
Theorem setup_drives_outputs (w : World) :
  pins_distinct ->
  0 <= fanState (vars w) <= 4 ->
  exists w',
    setup w = Some (tt, w') /\
    fanState (vars w') = fanState (vars w) /\
    lightState (vars w') = lightState (vars w) /\
    led3 (vars w') = default 0 (table_entry (fanState (vars w)) 6) /\
    outputs_ok w'.
Proof.
  intros Hd Hfs.
  destruct (setup_outputs w Hd Hfs) as (w' & Hrun & Hf & Hl & _ & _ & _ & _ & Hok).
  exists w'. split; [exact Hrun |]. split; [exact Hf |]. split; [exact Hl |].
  split; [| exact Hok].
  assert (Hrow : Some (led3 (vars w')) = table_entry (fanState (vars w)) 6).
  { revert Hrun. apply fanState_cases in Hfs. clear Hok Hf Hl Hd.
    destruct w as [[leds ? ? lgt fs ? ? ? ?] ?]. cbn in Hfs.
    inv_vec leds; intros. destruct lgt.
    all: destruct Hfs as [-> | [-> | [-> | [-> | ->]]]].
    all: revert Hrun; sx_run; intros Hrun; injection Hrun as <-; reflexivity. }
  rewrite <- Hrow. reflexivity.
Qed.

(** X11: toggling the light twice is a round trip: from a world whose light
    outputs agree with [lightState], the globals are the same again and
    the light outputs agree again. *)
Theorem toggleLight_twice (w : World) :
  pins_distinct ->
  light_outputs_ok w ->
  exists w',
    (toggleLight >> toggleLight) w = Some (tt, w') /\
    vars w' = vars w /\
    light_outputs_ok w'.
Proof.
  intros Hd. destruct_world w. split_distinct Hd.
  match goal with l : bool |- _ => destruct l end.
  all: sx_unfold; intros (Hled & _ & _); subst.
  all: eexists; split; [sx_run; reflexivity |].
  all: split; [reflexivity |].
  all: sx_run; sx_lines; repeat split.
Qed.

(** X12: [updateFan] stays within its table exactly when the fan state is
    0 .. 4. *)
Theorem updateFan_in_bounds_iff (w : World) :
  (exists w', updateFan w = Some (tt, w')) <-> 0 <= fanState (vars w) <= 4.
Proof.
  split.
  - intros [w' Hrun].
    destruct (Z_le_dec 0 (fanState (vars w))) as [Hlo | Hlo];
      [destruct (Z_le_dec (fanState (vars w)) 4) as [Hhi | Hhi] |].
    + lia.
    + rewrite updateFan_out_of_range in Hrun by lia. discriminate Hrun.
    + rewrite updateFan_out_of_range in Hrun by lia. discriminate Hrun.
  - apply updateFan_total.
Qed.

(** X13: [updateLeds] stays within its arrays exactly for the all-channel
    index -1 and the channels 0 .. 4. *)
Theorem updateLeds_in_bounds_iff (index : Z) (w : World) :
  (exists w', updateLeds index w = Some (tt, w')) <->
  index = -1 \/ 0 <= index <= 4.
Proof.
  split.
  - intros [w' Hrun].
    destruct (Z.eq_dec index (-1)) as [-> | Hne]; [left; reflexivity |].
    right.
    destruct (Z_le_dec 0 index) as [Hlo | Hlo];
      [destruct (Z_le_dec index 4) as [Hhi | Hhi] |]; [lia | exfalso | exfalso].
    all: unfold updateLeds in Hrun;
      rewrite (proj2 (Z.eqb_neq index (-1)) Hne) in Hrun;
      unfold writeLed, bind at 1 in Hrun; unfold lift in Hrun;
      rewrite nth_Z_out_of_bounds in Hrun by (cbn; lia);
      discriminate Hrun.
  - intros Hi. destruct w as [g log].
    destruct (updateLeds_writes index g Hi) as (ops & Hrun & _).
    eexists. apply Hrun.
Qed.

(** X14: in every world the sketch reaches the blink counter is 0 .. 29,
    and a tick advances it by one modulo 30. *)
Theorem blink_counter_cycles (history : list (Z * (Z -> Z))) :
  exists w,
    run history boot = Some (tt, w) /\
    0 <= counter (vars w) < 30 /\
    forall adc,
      exists w',
        loop60 adc w = Some (tt, w') /\
        counter (vars w') = (counter (vars w) + 1) mod 30.
Proof.
  destruct (run_invariant history) as (w & Hrun & _ & Hc).
  exists w. split; [exact Hrun |]. split; [exact Hc |].
  intros adc. destruct (loop60_effect adc w) as (w' & Hrun' & Hcnt & _).
  exists w'. split; [exact Hrun' |]. rewrite Hcnt.
  destruct (counter (vars w) + 1 =? 30) eqn:E.
  - apply Z.eqb_eq in E. rewrite E. reflexivity.
  - apply Z.eqb_neq in E. rewrite Z.mod_small by lia. reflexivity.
Qed.

End TickProperties.

Lemma run_fan_outputs_witness :
  @pins_distinct atmega328_pins /\
  exists w,
    @run atmega328_pins highblink_history boot = Some (tt, w) /\
    fan_outputs_ok w.
Proof.
  split; [exact atmega328_pins_distinct |].
  exact (@run_fan_outputs atmega328_pins highblink_history atmega328_pins_distinct).
Defined.

Lemma run_light_outputs_witness :
  @pins_distinct atmega328_pins /\
  exists w,
    @run atmega328_pins highblink_history boot = Some (tt, w) /\
    light_outputs_ok w.
Proof.
  split; [exact atmega328_pins_distinct |].
  exact (@run_light_outputs atmega328_pins highblink_history atmega328_pins_distinct).
Defined.

Lemma run_line_modes_witness :
  @pins_distinct atmega328_pins /\
  exists w,
    @run atmega328_pins highblink_history boot = Some (tt, w) /\
    @led_lines_ok atmega328_pins w /\ @fixed_modes_ok atmega328_pins w.
Proof.
  split; [exact atmega328_pins_distinct |].
  exact (@run_line_modes atmega328_pins highblink_history atmega328_pins_distinct).
Defined.

Lemma setup_drives_outputs_witness :
  @pins_distinct atmega328_pins /\
  0 <= fanState (vars idle_world) <= 4 /\
  exists w',
    @setup atmega328_pins idle_world = Some (tt, w') /\
    @outputs_ok atmega328_pins w'.
Proof.
  assert (Hfs : 0 <= fanState (vars idle_world) <= 4) by (cbn; lia).
  split; [exact atmega328_pins_distinct |]. split; [exact Hfs |].
  destruct (@setup_drives_outputs atmega328_pins idle_world
              atmega328_pins_distinct Hfs) as (w' & Hrun & _ & _ & _ & Hok).
  exists w'. split; [exact Hrun | exact Hok].
Defined.

Lemma ready_world_light_outputs : light_outputs_ok ready_world.
Proof. repeat split. Qed.

Lemma toggleLight_twice_witness :
  @pins_distinct atmega328_pins /\
  light_outputs_ok ready_world /\
  exists w',
    (@toggleLight atmega328_pins >> @toggleLight atmega328_pins) ready_world =
      Some (tt, w') /\
    vars w' = vars ready_world.
Proof.
  split; [exact atmega328_pins_distinct |].
  split; [exact ready_world_light_outputs |].
  destruct (@toggleLight_twice atmega328_pins ready_world
              atmega328_pins_distinct ready_world_light_outputs)
    as (w' & Hrun & Hvars & _).
  exists w'. split; [exact Hrun | exact Hvars].
Defined.
